(** * GeoServer publisher of the QGIS bridge plugin: model and properties

    A shallow embedding of [geocatbridge/publish/geoserver.py] (class
    [GeoserverServer]).  Methods become functions in a state-and-exception
    monad over the object's attributes, the remote server and the local
    collaborators; Python built-ins the methods rely on ([str.strip],
    [str.split], [in], subscripts, [int], [os.path.splitext], ...) are
    written out in module [Py]. *)

From Stdlib Require Import ZArith String Ascii List Bool Lia SpecFloat.
From stdpp Require Import gmap strings pretty.
Import ListNotations.
Open Scope string_scope.
Set Warnings "-register-all".

(* ===================================================================== *)
(** ** Python built-ins used by the source *)
(* ===================================================================== *)

Module Py.

(** Python [str] values are modelled as Rocq strings: the bytes of their
    UTF-8 encoding. *)
Definition chars (s : string) : list ascii := list_ascii_of_string s.
Definition str (l : list ascii) : string := string_of_list_ascii l.

Definition slash : ascii := "/"%char.
Definition dot : ascii := "."%char.
Definition colon : ascii := ":"%char.

(** [s.startswith(p)] on character lists. *)
Fixpoint starts (s p : list ascii) : bool :=
  match p, s with
  | [], _ => true
  | c :: p', d :: s' => Ascii.eqb c d && starts s' p'
  | _ :: _, [] => false
  end.

Definition startswith (s p : string) : bool := starts (chars s) (chars p).

(** [s.endswith(p)]. *)
Definition endswith (s p : string) : bool :=
  starts (rev (chars s)) (rev (chars p)).

(** [s.lstrip(c)] for a one-character set. *)
Fixpoint lstrip1 (c : ascii) (s : list ascii) : list ascii :=
  match s with
  | d :: s' => if Ascii.eqb d c then lstrip1 c s' else s
  | [] => []
  end.

(** [s.strip(c)]: leading and trailing occurrences of [c] removed. *)
Definition strip (s : string) (c : ascii) : string :=
  str (rev (lstrip1 c (rev (lstrip1 c (chars s))))).

(** [s.split(sep)] for a one-character separator, which is how the source
    always calls it.  The result is never empty. *)
Fixpoint split_go (sep : ascii) (cur : list ascii) (s : list ascii) : list string :=
  match s with
  | [] => [str (rev cur)]
  | d :: s' =>
      if Ascii.eqb d sep then str (rev cur) :: split_go sep [] s'
      else split_go sep (d :: cur) s'
  end.

Definition split (s : string) (sep : ascii) : list string :=
  split_go sep [] (chars s).

(** [sep.join(l)]. *)
Fixpoint join (sep : string) (l : list string) : string :=
  match l with
  | [] => EmptyString
  | [x] => x
  | x :: rest => x ++ sep ++ join sep rest
  end.

(** [sub in s] for strings. *)
Fixpoint contains_go (s sub : list ascii) : bool :=
  starts s sub ||
  match s with
  | [] => false
  | _ :: s' => contains_go s' sub
  end.

Definition contains (sub s : string) : bool := contains_go (chars s) (chars sub).

(** [s.replace(old, new)] for a non-empty [old]: occurrences are replaced
    left to right without overlap.  [skip] counts the characters of the
    match just replaced that are still to be dropped. *)
Fixpoint replace_go (old new : list ascii) (skip : nat) (s : list ascii) : list ascii :=
  match s with
  | [] => []
  | d :: s' =>
      match skip with
      | S k => replace_go old new k s'
      | O =>
          if starts s old
          then new ++ replace_go old new (Nat.pred (length old)) s'
          else d :: replace_go old new 0 s'
      end
  end.

Definition replace (s old new : string) : string :=
  str (replace_go (chars old) (chars new) 0 (chars s)).

(** [s.lower()] on ASCII letters. *)
Definition lower_char (c : ascii) : ascii :=
  let n := nat_of_ascii c in
  if (65 <=? n)%nat && (n <=? 90)%nat then ascii_of_nat (n + 32) else c.

Definition lower (s : string) : string := str (map lower_char (chars s)).

(** Part of [s] after the last [c] and the part before it, last [c]
    included; [None] when [c] does not occur. *)
Fixpoint rsplit_go (c : ascii) (s : list ascii) : option (list ascii * list ascii) :=
  match s with
  | [] => None
  | d :: s' =>
      match rsplit_go c s' with
      | Some (before, after) => Some (d :: before, after)
      | None => if Ascii.eqb d c then Some ([d], s') else None
      end
  end.

(** [os.path.basename(p)] (POSIX flavour): what follows the last slash. *)
Definition basename (p : string) : string :=
  match rsplit_go slash (chars p) with
  | Some (_, after) => str after
  | None => p
  end.

(** [os.path.splitext(p)] (POSIX flavour): the extension starts at the
    last dot of the last path component, unless only dots precede it
    there. *)
Definition splitext (p : string) : string * string :=
  let '(dir, file) :=
    match rsplit_go slash (chars p) with
    | Some (before, after) => (before, after)
    | None => ([], chars p)
    end in
  match rsplit_go dot file with
  | Some (stem_dot, ext) =>
      let stem := removelast stem_dot in
      if existsb (fun d => negb (Ascii.eqb d dot)) stem
      then (str (dir ++ stem), str (dot :: ext))
      else (p, EmptyString)
  | None => (p, EmptyString)
  end.

(** Exceptions the modelled code can meet.  [ConnectionError] and
    [RequestError] are the transport's; [OtherError] stands for whatever
    else a collaborator raises. *)
Inductive Exn :=
| KeyError | TypeError | ValueError | AttributeError | IndexError
| ConnectionError | RequestError (msg : string)
| OSError | OtherError (msg : string).

Inductive Result (A : Type) :=
| Ok (a : A)
| Raise (e : Exn).
Arguments Ok {A} a.
Arguments Raise {A} e.

(** *** Code points

    A [string] holds the UTF-8 bytes of a Python [str]; the built-ins that
    look at characters, [int()] and [str.strip()], read the code points
    off the bytes.  Bytes that are no UTF-8 (a [str] has none) are read as
    they come. *)

(** [need] continuation bytes are still to come for the code point whose
    leading bits are [acc]. *)
Fixpoint code_points_go (need : nat) (acc : N) (s : list ascii) : list N :=
  match s with
  | [] => []
  | c :: s' =>
      let n := N_of_ascii c in
      match need with
      | S k =>
          let acc' := (acc * 64 + n mod 64)%N in
          match k with
          | O => acc' :: code_points_go 0 0 s'
          | S _ => code_points_go k acc' s'
          end
      | O =>
          if (n <? 128)%N then n :: code_points_go 0 0 s'
          else if (n <? 224)%N then code_points_go 1 (n mod 32)%N s'
          else if (n <? 240)%N then code_points_go 2 (n mod 16)%N s'
          else code_points_go 3 (n mod 8)%N s'
      end
  end.

Definition code_points (s : string) : list N := code_points_go 0 0 (chars s).

(** The UTF-8 bytes of a code point. *)
Definition utf8 (n : N) : list ascii :=
  if (n <? 128)%N then [ascii_of_N n]
  else if (n <? 2048)%N then
    [ascii_of_N (192 + n / 64); ascii_of_N (128 + n mod 64)]
  else if (n <? 65536)%N then
    [ascii_of_N (224 + n / 4096); ascii_of_N (128 + (n / 64) mod 64);
     ascii_of_N (128 + n mod 64)]
  else
    [ascii_of_N (240 + n / 262144); ascii_of_N (128 + (n / 4096) mod 64);
     ascii_of_N (128 + (n / 64) mod 64); ascii_of_N (128 + n mod 64)].

Definition of_code_points (l : list N) : string := str (concat (map utf8 l)).

(** White space beyond ASCII ([str.isspace]). *)
Definition unicode_space (n : N) : bool :=
  ((n =? 133) || (n =? 160) || (n =? 5760)
   || ((8192 <=? n) && (n <=? 8202))
   || (n =? 8232) || (n =? 8233) || (n =? 8239) || (n =? 8287) || (n =? 12288))%N.

(** [c.isspace()]: the ASCII white space, which counts the separators
    28 to 31 in, and the white space beyond ASCII. *)
Definition is_space (n : N) : bool :=
  (((9 <=? n) && (n <=? 13)) || ((28 <=? n) && (n <=? 32)))%N || unicode_space n.

(** The digit zero of every run of decimal digits (category [Nd]) beyond
    ASCII, as of Unicode 14.0; each is followed by its digits one to
    nine. *)
Definition decimal_zeros : list N :=
  [1632; 1776; 1984; 2406; 2534; 2662; 2790; 2918; 3046; 3174; 3302; 3430; 3558;
   3664; 3792; 3872; 4160; 4240; 6112; 6160; 6470; 6608; 6784; 6800; 6992; 7088;
   7232; 7248; 42528; 43216; 43264; 43472; 43504; 43600; 44016; 65296; 66720;
   68912; 69734; 69872; 69942; 70096; 70384; 70736; 70864; 71248; 71360; 71472;
   71904; 72016; 72784; 73040; 73120; 92768; 92864; 93008; 120782; 120792;
   120802; 120812; 120822; 123200; 123632; 125264; 130032]%N.

(** The value of a decimal digit beyond ASCII. *)
Definition unicode_decimal (n : N) : option N :=
  match List.find (fun z => (z <=? n) && (n <=? z + 9))%N decimal_zeros with
  | Some z => Some (n - z)%N
  | None => None
  end.

(** What [int()] makes of a [str] before it parses: ASCII stays, white
    space beyond ASCII becomes a blank, a decimal digit beyond ASCII its
    ASCII digit, anything else a character no number contains. *)
Definition to_ascii (n : N) : ascii :=
  if (n <? 127)%N then ascii_of_N n
  else if unicode_space n then " "%char
  else
    match unicode_decimal n with
    | Some d => ascii_of_N (48 + d)
    | None => "?"%char
    end.

(** The white space the parser of [int()] skips: tab to carriage return,
    and the blank. *)
Definition is_blank (c : ascii) : bool :=
  let n := nat_of_ascii c in
  ((9 <=? n)%nat && (n <=? 13)%nat) || (n =? 32)%nat.

Definition digit_of (c : ascii) : option Z :=
  let n := nat_of_ascii c in
  if (48 <=? n)%nat && (n <=? 57)%nat then Some (Z.of_nat (n - 48)) else None.

Definition underscore : ascii := "_"%char.

(** Digits of a base-10 literal after the first digit: single underscores
    are allowed between digits. *)
Fixpoint int_digits (acc : Z) (s : list ascii) : option Z :=
  match s with
  | [] => Some acc
  | c :: s' =>
      match digit_of c with
      | Some d => int_digits (10 * acc + d) s'
      | None =>
          if Ascii.eqb c underscore then
            match s' with
            | c' :: s'' =>
                match digit_of c' with
                | Some d => int_digits (10 * acc + d) s''
                | None => None
                end
            | [] => None
            end
          else None
      end
  end.

Definition int_unsigned (s : list ascii) : option Z :=
  match s with
  | c :: s' =>
      match digit_of c with
      | Some d => int_digits d s'
      | None => None
      end
  | [] => None
  end.

Fixpoint lstrip_blank (s : list ascii) : list ascii :=
  match s with
  | d :: s' => if is_blank d then lstrip_blank s' else s
  | [] => []
  end.

(** [int(s)] for a string: surrounding white space, an optional sign,
    decimal digits of any script; anything else is a [ValueError]. *)
Definition int (s : string) : Result Z :=
  let text := map to_ascii (code_points s) in
  let body := rev (lstrip_blank (rev (lstrip_blank text))) in
  let parsed :=
    match body with
    | c :: rest =>
        if Ascii.eqb c "-"%char then option_map Z.opp (int_unsigned rest)
        else if Ascii.eqb c "+"%char then int_unsigned rest
        else int_unsigned body
    | [] => None
    end in
  match parsed with
  | Some z => Ok z
  | None => Raise ValueError
  end.

(** [s.strip()]: white space removed at both ends. *)
Fixpoint lstrip_space (s : list N) : list N :=
  match s with
  | d :: s' => if is_space d then lstrip_space s' else s
  | [] => []
  end.

Definition strip_space (s : string) : string :=
  of_code_points (rev (lstrip_space (rev (lstrip_space (code_points s))))).

(** *** [round]

    [round(x, ndigits)] on a double, for [ndigits >= 0]: the double is
    written out with [ndigits] digits after the point, correctly rounded
    from its exact value with ties to the even digit, and the decimal
    number so written is read back as the double nearest to it.  Zeros,
    infinities and NaN round to themselves; the sign is kept. *)

Definition prec : Z := 53.
Definition emax : Z := 1024.

(** [num / den] rounded to the nearest integer, ties to even, for
    [num >= 0] and [den > 0]. *)
Definition div_half_even (num den : Z) : Z :=
  let q := (num / den)%Z in
  let r := (num mod den)%Z in
  match (2 * r ?= den)%Z with
  | Lt => q
  | Gt => (q + 1)%Z
  | Eq => if Z.even q then q else (q + 1)%Z
  end.

(** The integer [q] with [q / 10^ndigits] the decimal number of [ndigits]
    digits nearest to [m * 2^e]. *)
Definition decimal_digits (m : positive) (e : Z) (ndigits : N) : Z :=
  let scale := (10 ^ Z.of_N ndigits)%Z in
  match e with
  | Zneg p => div_half_even (Zpos m * scale) (2 ^ Zpos p)
  | _ => (Zpos m * 2 ^ e * scale)%Z
  end.

(** The double nearest to [q / 10^ndigits], ties to even. *)
Definition of_decimal (s : bool) (q : Z) (ndigits : N) : spec_float :=
  match q with
  | Zpos _ =>
      let '(mz, ez, lz) :=
        SFdiv_core_binary prec emax q 0 (10 ^ Z.of_N ndigits)%Z 0 in
      binary_round_aux prec emax s mz ez lz
  | _ => S754_zero s
  end.

Definition round (x : spec_float) (ndigits : N) : spec_float :=
  match x with
  | S754_finite s m e =>
      if (323 <? ndigits)%N then x
      else of_decimal s (decimal_digits m e ndigits) ndigits
  | _ => x
  end.

(** JSON documents as [json.loads] returns them: [None], [bool], [int],
    [float] (an IEEE double), [str], [list] and [dict] (keys in document
    order). *)
Inductive json :=
| JNull
| JBool (b : bool)
| JInt (z : Z)
| JFloat (f : spec_float)
| JStr (s : string)
| JArr (l : list json)
| JObj (m : list (string * json)).

Fixpoint assoc_get (k : string) (m : list (string * json)) : option json :=
  match m with
  | [] => None
  | (k', v) :: m' => if String.eqb k' k then Some v else assoc_get k m'
  end.

(** [d[k] = v] on a dict: an existing key keeps its place, a new one goes
    last. *)
Fixpoint assoc_set (k : string) (v : json) (m : list (string * json)) : list (string * json) :=
  match m with
  | [] => [(k, v)]
  | (k', v') :: m' =>
      if String.eqb k' k then (k, v) :: m' else (k', v') :: assoc_set k v m'
  end.

(** [j[k]] for a string key. *)
Definition getitem (j : json) (k : string) : Result json :=
  match j with
  | JObj m =>
      match assoc_get k m with
      | Some v => Ok v
      | None => Raise KeyError
      end
  | _ => Raise TypeError
  end.

(** [j[k] = v] for a string key. *)
Definition setitem (j : json) (k : string) (v : json) : Result json :=
  match j with
  | JObj m => Ok (JObj (assoc_set k v m))
  | _ => Raise TypeError
  end.

(** [j == s] for a string [s]. *)
Definition eq_str (j : json) (s : string) : bool :=
  match j with
  | JStr t => String.eqb t s
  | _ => false
  end.

(** [s in j] for a string [s]: a key of a dict, a substring of a string,
    an element of a list; other values are not containers. *)
Definition str_in (s : string) (j : json) : Result bool :=
  match j with
  | JObj m => Ok (existsb (fun kv => String.eqb (fst kv) s) m)
  | JStr t => Ok (contains s t)
  | JArr l => Ok (existsb (fun x => eq_str x s) l)
  | _ => Raise TypeError
  end.

(** The values [for x in j] runs over: the elements of a list, the keys of
    a dict, the characters of a string. *)
Definition iter (j : json) : Result (list json) :=
  match j with
  | JArr l => Ok l
  | JObj m => Ok (map (fun kv => JStr (fst kv)) m)
  | JStr t => Ok (map (fun c => JStr (String c EmptyString)) (chars t))
  | _ => Raise TypeError
  end.

(** [hash(j)] succeeds: lists and dicts cannot be members of a [set]. *)
Definition hashable (j : json) : bool :=
  match j with
  | JArr _ | JObj _ => false
  | _ => true
  end.

(** A comprehension [[f(x) for x in l]] whose body can raise. *)
Fixpoint comprehension {A B : Type} (f : A -> Result B) (l : list A) : Result (list B) :=
  match l with
  | [] => Ok []
  | x :: l' =>
      match f x with
      | Raise e => Raise e
      | Ok y =>
          match comprehension f l' with
          | Raise e => Raise e
          | Ok ys => Ok (y :: ys)
          end
      end
  end.

(** Truth value of a string: non-empty. *)
Definition truthy (s : string) : bool :=
  match s with
  | EmptyString => false
  | String _ _ => true
  end.

End Py.

Import Py.

(* ===================================================================== *)
(** ** Data the publisher works on *)
(* ===================================================================== *)

(** [layer.type()]: the two kinds the publisher handles, and the rest
    (mesh, plugin, ... layers). *)
Inductive LayerType := VectorLayer | RasterLayer | OtherLayer.

(** [layer.extent()]: a [QgsRectangle] of doubles. *)
Record Extent := {
  xMinimum : spec_float;
  xMaximum : spec_float;
  yMinimum : spec_float;
  yMaximum : spec_float
}.

(** What the publisher reads off a [QgsMapLayer]. *)
Record Layer := {
  layer_id : string;            (* the object's identity *)
  layer_type : LayerType;
  featureCount : Z;
  providerName : string;        (* layer.dataProvider().name() *)
  layer_source : string;        (* layer.source() *)
  layer_name : string;          (* layer.name() *)
  layer_extent : Extent;        (* layer.extent() *)
  crs_authid : string           (* layer.crs().authid() *)
}.

(** A PostGIS server profile ([PostgisServer]): the attributes the
    publisher reads. *)
Record Db := {
  db_name : string;
  db_authid : string;
  db_host : string;
  db_port : string;
  db_schema : string;
  db_database : string
}.

(** [QgsDataSourceUri(source)]: the parts read by [publishLayer]. *)
Record DataSourceUri := {
  uri_authConfigId : string;
  uri_host : string;
  uri_port : string;
  uri_schema : string;
  uri_database : string
}.

(** A group of the layer tree as the caller hands it over: a dict with the
    keys [name], [title], [abstract] and [layers] (a key may be missing),
    whose members are layer names ([str]) or groups ([dict]). *)
Inductive Member :=
| LayerName (n : string)
| SubGroup (g : Group)
with Group :=
| mkGroup (g_name g_title g_abstract : option string) (g_layers : option (list Member)).

Definition group_name (g : Group) : option string := let 'mkGroup n _ _ _ := g in n.
Definition group_title (g : Group) : option string := let 'mkGroup _ t _ _ := g in t.
Definition group_abstract (g : Group) : option string := let 'mkGroup _ _ a _ := g in a.
Definition group_layers (g : Group) : option (list Member) := let 'mkGroup _ _ _ l := g in l.

(** The sprite sheet [convertGroup] may return: two images and their
    metrics. *)
Record SpriteSheet := {
  sprite_img : string;
  sprite_img2x : string;
  sprite_json : string;
  sprite_json2x : string
}.

(** ** The transport *)

(** The [data] argument of [request]: nothing, a dict (sent as JSON), text
    or bytes. *)
Inductive Data :=
| NoData
| DataDict (j : json)
| DataStr (s : string)
| DataBytes (b : string).

(** One call [self.request(url, data, method, headers, files)]. *)
Record Request := {
  req_url : string;
  req_data : Data;
  req_method : string;
  req_headers : list (string * string);
  req_files : list (string * string)
}.

(** What the publisher reads off a response: [r.text], and [r.json()],
    which raises when the body is no JSON document ([None] here). *)
Record Response := {
  resp_text : string;
  resp_json : option json
}.

Definition json_of (r : Response) : Result json :=
  match resp_json r with
  | Some j => Ok j
  | None => Raise ValueError
  end.

(** ** Collaborators

    Everything the class calls but does not define: the inherited
    [ServerBase.request] (it raises on a connectivity failure and on a
    non-2xx answer), the QGIS project and data-source parsing, the layer
    exporter, the file system, the style converter, the registry of server
    profiles, and Python's [repr].  [World] is the
    state all of them act on: the remote server and the local machine. *)
Class Env := {
  World : Type;
  transport : Request -> World -> World * Result Response;
  absoluteFilePath : string;
  parseDataSourceUri : string -> DataSourceUri;
  exportLayer : Layer -> option (list string) -> bool -> bool -> World -> World * Result string;
  zipWrite : string -> list (string * string) -> World -> World * Result unit;
  openRead : string -> World -> World * Result string;
  gpkgGeometryTables : string -> World -> World * Result (list string);
  allServers : World -> gmap string Db;
  importLayer : Db -> Layer -> option (list string) -> World -> World * Result unit;
  getCredentials : Db -> World -> World * Result (string * string);
  convertGroup : Group -> list Layer -> string -> string -> string -> World ->
                 World * Result (string * list string * option SpriteSheet);
  getImageBytes : string -> World -> World * Result string;
  tempFilenameInTempFolder : string -> World -> World * Result string;
  saveLayerStyleAsZippedSld : Layer -> string -> World -> World * Result (list string);
  py_repr : json -> string
}.

(* ===================================================================== *)
(** ** The object and the monad its methods run in *)
(* ===================================================================== *)

(** [self._layersCache]: [{}] after [__init__], the list of layer names
    after a fetch, [None] after [_clearCache]. *)
Inductive LayersCache :=
| CacheNone
| CacheEmptyDict
| CacheItems (items : list json).

(** The attributes of a [GeoserverServer].  The four attributes that only
    [prepareForPublishing] sets are [None] until then (reading them raises
    [AttributeError]). *)
Record Self := {
  self_name : string;
  self_url : string;
  authid : string;
  storage : Z;
  postgisdb : option string;
  useOriginalDataSource : bool;
  useVectorTiles : bool;
  _isMetadataCatalog : bool;
  _isDataCatalog : bool;
  _layersCache : LayersCache;
  _uploadedDatasets : option (gmap string (string * string));
  _exportedLayers : option (gmap string string);
  _postgisDatastoreExists : option bool;
  _publishedLayers : option (list Layer)
}.

Definition FILE_BASED : Z := 0.
Definition POSTGIS_MANAGED_BY_BRIDGE : Z := 1.
Definition POSTGIS_MANAGED_BY_GEOSERVER : Z := 2.

Definition with_layersCache (c : LayersCache) (o : Self) : Self :=
  {| self_name := self_name o; self_url := self_url o; authid := authid o; storage := storage o;
     postgisdb := postgisdb o; useOriginalDataSource := useOriginalDataSource o;
     useVectorTiles := useVectorTiles o; _isMetadataCatalog := _isMetadataCatalog o;
     _isDataCatalog := _isDataCatalog o; _layersCache := c;
     _uploadedDatasets := _uploadedDatasets o; _exportedLayers := _exportedLayers o;
     _postgisDatastoreExists := _postgisDatastoreExists o;
     _publishedLayers := _publishedLayers o |}.

Definition with_uploadedDatasets (d : gmap string (string * string)) (o : Self) : Self :=
  {| self_name := self_name o; self_url := self_url o; authid := authid o; storage := storage o;
     postgisdb := postgisdb o; useOriginalDataSource := useOriginalDataSource o;
     useVectorTiles := useVectorTiles o; _isMetadataCatalog := _isMetadataCatalog o;
     _isDataCatalog := _isDataCatalog o; _layersCache := _layersCache o;
     _uploadedDatasets := Some d; _exportedLayers := _exportedLayers o;
     _postgisDatastoreExists := _postgisDatastoreExists o;
     _publishedLayers := _publishedLayers o |}.

Definition with_exportedLayers (d : gmap string string) (o : Self) : Self :=
  {| self_name := self_name o; self_url := self_url o; authid := authid o; storage := storage o;
     postgisdb := postgisdb o; useOriginalDataSource := useOriginalDataSource o;
     useVectorTiles := useVectorTiles o; _isMetadataCatalog := _isMetadataCatalog o;
     _isDataCatalog := _isDataCatalog o; _layersCache := _layersCache o;
     _uploadedDatasets := _uploadedDatasets o; _exportedLayers := Some d;
     _postgisDatastoreExists := _postgisDatastoreExists o;
     _publishedLayers := _publishedLayers o |}.

Definition with_postgisDatastoreExists (b : bool) (o : Self) : Self :=
  {| self_name := self_name o; self_url := self_url o; authid := authid o; storage := storage o;
     postgisdb := postgisdb o; useOriginalDataSource := useOriginalDataSource o;
     useVectorTiles := useVectorTiles o; _isMetadataCatalog := _isMetadataCatalog o;
     _isDataCatalog := _isDataCatalog o; _layersCache := _layersCache o;
     _uploadedDatasets := _uploadedDatasets o; _exportedLayers := _exportedLayers o;
     _postgisDatastoreExists := Some b;
     _publishedLayers := _publishedLayers o |}.

Definition with_publishedLayers (l : list Layer) (o : Self) : Self :=
  {| self_name := self_name o; self_url := self_url o; authid := authid o; storage := storage o;
     postgisdb := postgisdb o; useOriginalDataSource := useOriginalDataSource o;
     useVectorTiles := useVectorTiles o; _isMetadataCatalog := _isMetadataCatalog o;
     _isDataCatalog := _isDataCatalog o; _layersCache := _layersCache o;
     _uploadedDatasets := _uploadedDatasets o; _exportedLayers := _exportedLayers o;
     _postgisDatastoreExists := _postgisDatastoreExists o;
     _publishedLayers := Some l |}.

(** Severity of a line written through [logInfo], [logWarning] or
    [logError]. *)
Inductive Level := Info | Warning | Error.

Section Monad.
Context {E : Env}.

(** What a method call can change: the object, the world, and two
    histories kept for the properties: the requests issued through
    [self.request], oldest first, and the lines logged. *)
Record St := {
  self : Self;
  world : World;
  trace : list Request;
  logged : list (Level * string)
}.

(** A method body: it ends with a value or an exception, and the state it
    reached either way (Python undoes nothing when an exception passes). *)
Definition M (A : Type) : Type := St -> St * Result A.

Definition ret {A} (a : A) : M A := fun st => (st, Ok a).

Definition raise {A} (e : Exn) : M A := fun st => (st, Raise e).

Definition bind {A B} (m : M A) (k : A -> M B) : M B :=
  fun st =>
    match m st with
    | (st', Ok a) => k a st'
    | (st', Raise e) => (st', Raise e)
    end.

(** [try: m except: h]: a bare [except] catches every exception. *)
Definition try_except {A} (m : M A) (h : M A) : M A :=
  fun st =>
    match m st with
    | (st', Ok a) => (st', Ok a)
    | (st', Raise _) => h st'
    end.

(** A pure computation that may raise. *)
Definition lift {A} (r : Result A) : M A := fun st => (st, r).

(** A collaborator acting on the world. *)
Definition call {A} (f : World -> World * Result A) : M A :=
  fun st =>
    let '(w, r) := f (world st) in
    ({| self := self st; world := w; trace := trace st; logged := logged st |}, r).

Definition get_self : M Self := fun st => (st, Ok (self st)).

Definition get_world : M World := fun st => (st, Ok (world st)).

Definition modify_self (f : Self -> Self) : M unit :=
  fun st =>
    ({| self := f (self st); world := world st; trace := trace st; logged := logged st |},
     Ok tt).

(** An attribute that may not have been set yet. *)
Definition attribute {A} (f : Self -> option A) : M A :=
  fun st =>
    match f (self st) with
    | Some a => (st, Ok a)
    | None => (st, Raise AttributeError)
    end.

Definition log_line (lv : Level) (msg : string) : M unit :=
  fun st =>
    ({| self := self st; world := world st; trace := trace st;
        logged := logged st ++ [(lv, msg)] |}, Ok tt).

Definition logInfo (msg : string) : M unit := log_line Info msg.
Definition logWarning (msg : string) : M unit := log_line Warning msg.
Definition logError (msg : string) : M unit := log_line Error msg.

(** [self.request(url, data, method, headers, files)]: the call is
    recorded, then handed to the transport. *)
Definition request_full (u : string) (d : Data) (m : string)
    (h : list (string * string)) (f : list (string * string)) : M Response :=
  fun st =>
    let rq := {| req_url := u; req_data := d; req_method := m;
                 req_headers := h; req_files := f |} in
    let '(w, r) := transport rq (world st) in
    ({| self := self st; world := w; trace := trace st ++ [rq]; logged := logged st |}, r).

(** [self.request(url)], [self.request(url, data, method)] and
    [self.request(url, data, method, headers)]: the defaults are
    [data=None], [method="get"], no headers, no files. *)
Definition request_get (u : string) : M Response := request_full u NoData "get" [] [].
Definition request (u : string) (d : Data) (m : string) : M Response :=
  request_full u d m [] [].
Definition request_h (u : string) (d : Data) (m : string) (h : list (string * string)) : M Response :=
  request_full u d m h [].

End Monad.

Declare Scope py_scope.
Delimit Scope py_scope with py.
Notation "x <- m ;; k" := (bind m (fun x => k))
  (at level 100, m at next level, right associativity) : py_scope.
Notation "m ;; k" := (bind m (fun _ => k))
  (at level 100, k at level 200, right associativity) : py_scope.
Open Scope py_scope.

(* ===================================================================== *)
(** ** The methods of [GeoserverServer] *)
(* ===================================================================== *)

Section Methods.
Context {E : Env}.

(** [GeoserverServer.__init__]. *)
Definition __init__ (name url authid : string) (storage : Z) (postgisdb : option string)
    (useOriginalDataSource useVectorTiles : bool) : Self :=
  {| self_name := name;
     self_url :=
       if truthy url then
         if endswith url "rest" then strip url slash
         else strip url slash +:+ "/rest"
       else url;
     authid := authid;
     storage := storage;
     postgisdb := postgisdb;
     useOriginalDataSource := useOriginalDataSource;
     useVectorTiles := useVectorTiles;
     _isMetadataCatalog := false;
     _isDataCatalog := true;
     _layersCache := CacheEmptyDict;
     _uploadedDatasets := None;
     _exportedLayers := None;
     _postgisDatastoreExists := None;
     _publishedLayers := None |}.

(** The property [_workspace]: the project file's name without its
    extension, empty for an unsaved project. *)
Definition _workspace : string :=
  let path := absoluteFilePath in
  if truthy path then fst (splitext (basename path)) else EmptyString.

(** [self.url], read inside a method. *)
Definition the_url : M string := o <- get_self ;; ret (self_url o).

(** [baseUrl]: the URL without its last path component. *)
Definition baseUrl : M string :=
  u <- the_url ;; ret (join "/" (removelast (split u slash))).

Definition _clearCache : M unit := modify_self (with_layersCache CacheNone).

(** [name in items] for a list of names. *)
Definition name_in (name : string) (items : list json) : bool :=
  existsb (fun x => eq_str x name) items.

Definition cache_is_None (c : LayersCache) : bool :=
  match c with
  | CacheNone => true
  | _ => false
  end.

(** The cache read as a container: the initial [{}] holds nothing. *)
Definition cache_items (c : LayersCache) : list json :=
  match c with
  | CacheItems items => items
  | _ => []
  end.

(** [_exists]: every exception raised inside is answered [False]. *)
Definition _exists (url category name : string) : M bool :=
  try_except
    (o <- get_self ;;
     if negb (String.eqb category "layer") || cache_is_None (_layersCache o) then
       r <- request_get url ;;
       j <- lift (json_of r) ;;
       root <- lift (getitem j (category +:+ "s")) ;;
       present <- lift (str_in category root) ;;
       if present then
         members <- lift (getitem root category) ;;
         elems <- lift (iter members) ;;
         items <- lift (comprehension (fun s => getitem s "name") elems) ;;
         (if String.eqb category "layer"
          then modify_self (with_layersCache (CacheItems items))
          else ret tt) ;;
         ret (name_in name items)
       else ret false
     else
       ret (name_in name (cache_items (_layersCache o))))
    (ret false).

Definition layerExists (name : string) : M bool :=
  u <- the_url ;;
  _exists (u +:+ "/workspaces/" +:+ _workspace +:+ "/layers.json") "layer" name.

(** [layers]: the names listed for the workspace; unlike [_exists] it
    lets exceptions pass. *)
Definition layers : M (list json) :=
  u <- the_url ;;
  r <- request_get (u +:+ "/workspaces/" +:+ _workspace +:+ "/layers.json") ;;
  j <- lift (json_of r) ;;
  root <- lift (getitem j "layers") ;;
  present <- lift (str_in "layer" root) ;;
  if present then
    members <- lift (getitem root "layer") ;;
    elems <- lift (iter members) ;;
    lift (comprehension (fun s => getitem s "name") elems)
  else ret [].

Definition styleExists (name : string) : M bool :=
  u <- the_url ;;
  _exists (u +:+ "/workspaces/" +:+ _workspace +:+ "/styles.json") "style" name.

Definition workspaceExists : M bool :=
  u <- the_url ;;
  _exists (u +:+ "/workspaces.json") "workspace" _workspace.

Definition datastoreExists (name : string) : M bool :=
  u <- the_url ;;
  _exists (u +:+ "/workspaces/" +:+ _workspace +:+ "/datastores.json") "dataStore" name.

(** [willDeleteLayersOnPublication]: [set(layers) - set(toPublish)] is
    non-empty.  Building the set hashes every listed name. *)
Definition willDeleteLayersOnPublication (toPublish : list string) : M bool :=
  ex <- workspaceExists ;;
  if ex then
    ls <- layers ;;
    if forallb hashable ls
    then ret (existsb (fun l => negb (existsb (eq_str l) toPublish)) ls)
    else raise TypeError
  else ret false.

Definition _deleteDatastore (name : string) : M unit :=
  u <- the_url ;;
  try_except
    (request (u +:+ "/workspaces/" +:+ _workspace +:+ "/datastores/" +:+ name +:+ "?recurse=true")
             NoData "delete" ;; ret tt)
    (ret tt).

(** [deleteLayer(name, recurse=True)]. *)
Definition deleteLayer (name : string) (recurse : bool) : M unit :=
  ex <- layerExists name ;;
  if ex then
    let recurseParam := if recurse then "recurse=true" else EmptyString in
    u <- the_url ;;
    request (u +:+ "/workspaces/" +:+ _workspace +:+ "/layers/" +:+ name +:+ ".json?" +:+ recurseParam)
            NoData "delete" ;;
    ret tt
  else ret tt.

Definition deleteStyle (name : string) : M unit :=
  ex <- styleExists name ;;
  if ex then
    u <- the_url ;;
    request (u +:+ "/workspaces/" +:+ _workspace +:+ "/styles/" +:+ name +:+ "?purge=true&recurse=true")
            NoData "delete" ;;
    ret tt
  else ret tt.

Definition unpublishData (layer : Layer) : M unit :=
  deleteLayer (layer_name layer) true ;;
  deleteStyle (layer_name layer).

Definition deleteWorkspace : M unit :=
  ex <- workspaceExists ;;
  if ex then
    u <- the_url ;;
    request (u +:+ "/workspaces/" +:+ _workspace +:+ "?recurse=true") NoData "delete" ;;
    _clearCache
  else ret tt.

Definition _ensureWorkspaceExists : M unit :=
  ex <- workspaceExists ;;
  if negb ex then
    u <- the_url ;;
    request (u +:+ "/workspaces")
            (DataDict (JObj [("workspace", JObj [("name", JStr _workspace)])])) "post" ;;
    ret tt
  else ret tt.

(** [d[k1][k2] = v] on nested dicts. *)
Definition set_nested (d : json) (k1 k2 : string) (v : json) : Result json :=
  match getitem d k1 with
  | Raise e => Raise e
  | Ok inner =>
      match setitem inner k2 v with
      | Raise e => Raise e
      | Ok inner' => setitem d k1 inner'
      end
  end.

Definition _setLayerStyle (layername stylename : string) : M unit :=
  u <- the_url ;;
  let url := u +:+ "/workspaces/" +:+ _workspace +:+ "/layers/" +:+ layername +:+ ".json" in
  r <- request_get url ;;
  layer <- lift (json_of r) ;;
  let styleUrl := u +:+ "/workspaces/" +:+ _workspace +:+ "/styles/" +:+ stylename +:+ ".json" in
  layer' <- lift (set_nested layer "layer" "defaultStyle"
                    (JObj [("name", JStr stylename); ("href", JStr styleUrl)])) ;;
  request url (DataDict layer') "put" ;;
  ret tt.

(** [_publishStyle]: PUT to the named style when it exists, POST to the
    collection otherwise; the body is only sent for a [.zip] or [.mapbox]
    file. *)
Definition _publishStyle (name styleFilename : string) : M unit :=
  _ensureWorkspaceExists ;;
  styleExists <- styleExists name ;;
  u <- the_url ;;
  let '(method, url) :=
    if styleExists
    then ("put", u +:+ "/workspaces/" +:+ _workspace +:+ "/styles/" +:+ name)
    else ("post", u +:+ "/workspaces/" +:+ _workspace +:+ "/styles?name=" +:+ name) in
  let ext := snd (splitext styleFilename) in
  if String.eqb (lower ext) ".zip" then
    content <- call (openRead styleFilename) ;;
    request_h url (DataBytes content) method [("Content-type", "application/zip")] ;;
    logInfo ("Style " +:+ name +:+ " correctly created from Zip file '" +:+ styleFilename +:+ "'")
  else if String.eqb (lower ext) ".mapbox" then
    content <- call (openRead styleFilename) ;;
    request_h url (DataStr content) method
              [("Content-type", "application/vnd.geoserver.mbstyle+json")] ;;
    logInfo ("Style " +:+ name +:+ " correctly created from mbstyle file '" +:+ styleFilename +:+ "'")
  else ret tt.


(** [for x in l: body(x)]. *)
Fixpoint for_each {A} (l : list A) (body : A -> M unit) : M unit :=
  match l with
  | [] => ret tt
  | x :: l' => body x ;; for_each l' body
  end.

(** [self._publishedLayers.add(layer)]: layers are told apart by identity. *)
Definition set_add (layer : Layer) (s : list Layer) : list Layer :=
  if existsb (fun l => String.eqb (layer_id l) (layer_id layer)) s then s else s ++ [layer].

Definition publishStyle (layer : Layer) : M string :=
  published <- attribute _publishedLayers ;;
  modify_self (with_publishedLayers (set_add layer published)) ;;
  styleFilename <- call (tempFilenameInTempFolder (layer_name layer +:+ ".zip")) ;;
  warnings <- call (saveLayerStyleAsZippedSld layer styleFilename) ;;
  for_each warnings logWarning ;;
  logInfo ("Style for layer " +:+ layer_name layer +:+ " exported as zip file to " +:+ styleFilename) ;;
  _publishStyle (layer_name layer) styleFilename ;;
  ret styleFilename.

(** [a, b = self.postgisdb.split(":")]. *)
Definition split_postgisdb : M (string * string) :=
  o <- get_self ;;
  match postgisdb o with
  | None => raise AttributeError
  | Some s =>
      match split s colon with
      | [a; b] => ret (a, b)
      | _ => raise ValueError
      end
  end.

Definition createPostgisDatastore : M unit :=
  parts <- split_postgisdb ;;
  let '(ws, name) := parts in
  ex <- datastoreExists name ;;
  if negb ex then
    u <- the_url ;;
    r <- request_get (u +:+ "/workspaces/" +:+ ws +:+ "/datastores/" +:+ name +:+ ".json") ;;
    j <- lift (json_of r) ;;
    datastore <- lift (getitem j "dataStore") ;;
    ds_name <- lift (getitem datastore "name") ;;
    ds_type <- lift (getitem datastore "type") ;;
    ds_params <- lift (getitem datastore "connectionParameters") ;;
    let newDatastore :=
      JObj [("dataStore", JObj [("name", ds_name); ("type", ds_type);
                                ("connectionParameters", ds_params);
                                ("enabled", JBool true)])] in
    request (u +:+ "/workspaces/" +:+ _workspace +:+ "/datastores") (DataDict newDatastore) "post" ;;
    ret tt
  else ret tt.

(** [d[k]] on one of the session's dicts. *)
Definition dict_get {V} (d : gmap string V) (k : string) : M V :=
  match d !! k with
  | Some v => ret v
  | None => raise KeyError
  end.

(** The [nativeBoundingBox] written by the file-based path. *)
Definition nativeBoundingBox (layer : Layer) : json :=
  let ext := layer_extent layer in
  JObj [("minx", JFloat (round (xMinimum ext) 5));
        ("maxx", JFloat (round (xMaximum ext) 5));
        ("miny", JFloat (round (yMinimum ext) 5));
        ("maxy", JFloat (round (yMaximum ext) 5));
        ("srs", JStr (crs_authid layer))].

Definition _publishVectorLayerFromFile (layer : Layer) (filename : string) : M unit :=
  logInfo ("Publishing layer from file: " +:+ filename) ;;
  let name := layer_name layer in
  u <- the_url ;;
  uploaded <- attribute _uploadedDatasets ;;
  let isDataUploaded := bool_decide (is_Some (uploaded !! filename)) in
  (if negb isDataUploaded then
     content <- call (openRead filename) ;;
     _deleteDatastore name ;;
     request (u +:+ "/workspaces/" +:+ _workspace +:+ "/datastores/" +:+ name
                +:+ "/file.gpkg?update=overwrite") (DataBytes content) "put" ;;
     rows <- call (gpkgGeometryTables filename) ;;
     match rows with
     | tablename :: _ =>
         modify_self (with_uploadedDatasets (<[filename := (name, tablename)]> uploaded))
     | [] => raise IndexError
     end
   else ret tt) ;;
  uploaded <- attribute _uploadedDatasets ;;
  entry <- dict_get uploaded filename ;;
  let '(datasetName, geoserverLayerName) := entry in
  let url := u +:+ "/workspaces/" +:+ _workspace +:+ "/datastores/" +:+ datasetName
               +:+ "/featuretypes/" +:+ geoserverLayerName +:+ ".json" in
  r <- request_get url ;;
  ft <- lift (json_of r) ;;
  ft <- lift (set_nested ft "featureType" "name" (JStr name)) ;;
  ft <- lift (set_nested ft "featureType" "title" (JStr name)) ;;
  ft <- lift (set_nested ft "featureType" "nativeBoundingBox" (nativeBoundingBox layer)) ;;
  (if isDataUploaded then
     request (u +:+ "/workspaces/" +:+ _workspace +:+ "/datastores/" +:+ datasetName
                +:+ "/featuretypes") (DataDict ft) "post"
   else request url (DataDict ft) "put") ;;
  logInfo ("Feature type correctly created from GPKG file '" +:+ filename +:+ "'") ;;
  _setLayerStyle name name.

Definition _entry (k v : string) : json := JObj [("@key", JStr k); ("$", JStr v)].

Definition _publishVectorLayerFromPostgis (layer : Layer) (db : Db) : M unit :=
  let name := layer_name layer in
  cred <- call (getCredentials db) ;;
  let '(username, password) := cred in
  let ds :=
    JObj [("dataStore",
           JObj [("name", JStr name);
                 ("type", JStr "PostGIS");
                 ("enabled", JBool true);
                 ("connectionParameters",
                  JObj [("entry",
                         JArr [_entry "schema" (db_schema db);
                               _entry "port" (db_port db);
                               _entry "database" (db_database db);
                               _entry "passwd" password;
                               _entry "user" username;
                               _entry "host" (db_host db);
                               _entry "dbtype" "postgis"])])])] in
  u <- the_url ;;
  request (u +:+ "/workspaces/" +:+ _workspace +:+ "/datastores/") (DataDict ds) "post" ;;
  let ft := JObj [("featureType", JObj [("name", JStr name); ("srs", JStr (crs_authid layer))])] in
  request (u +:+ "/workspaces/" +:+ _workspace +:+ "/datastores/" +:+ name +:+ "/featuretypes")
          (DataDict ft) "post" ;;
  _setLayerStyle name name.


(** ["%s" % j]: [str] of a JSON value; lists, dicts and floats print
    through [repr]. *)
Definition format_s (j : json) : string :=
  match j with
  | JStr t => t
  | JInt z => pretty z
  | JNull => "None"
  | JBool true => "True"
  | JBool false => "False"
  | _ => py_repr j
  end.

Definition _publishVectorLayerFromFileToPostgis (layer : Layer) (filename : string) : M unit :=
  logInfo ("Publishing layer from file: " +:+ filename) ;;
  createPostgisDatastore ;;
  parts <- split_postgisdb ;;
  let '(ws, datastoreName) := parts in
  let name := layer_name layer in
  u <- the_url ;;
  uploaded <- attribute _uploadedDatasets ;;
  let isDataUploaded := bool_decide (is_Some (uploaded !! filename)) in
  (if negb isDataUploaded then
     let _import :=
       JObj [("import",
              JObj [("targetStore", JObj [("dataStore", JObj [("name", JStr datastoreName)])]);
                    ("targetWorkspace", JObj [("workspace", JObj [("name", JStr _workspace)])])])] in
     r <- request (u +:+ "/imports") (DataDict _import) "post" ;;
     j <- lift (json_of r) ;;
     imp <- lift (getitem j "import") ;;
     importId <- lift (getitem imp "id") ;;
     call (openRead filename) ;;
     r <- request_full (u +:+ "/imports/" +:+ format_s importId +:+ "/tasks") NoData "post" []
                       [(basename filename, filename)] ;;
     j <- lift (json_of r) ;;
     task <- lift (getitem j "task") ;;
     taskId <- lift (getitem task "id") ;;
     let target := JObj [("dataStore", JObj [("name", JStr datastoreName)])] in
     request (u +:+ "/imports/" +:+ format_s importId +:+ "/tasks/" +:+ format_s taskId +:+ "/target")
             (DataDict target) "put" ;;
     request (u +:+ "/imports/" +:+ format_s importId) NoData "post" ;;
     let layername := fst (splitext (basename filename)) in
     modify_self (with_uploadedDatasets (<[filename := (datastoreName, layername)]> uploaded))
   else ret tt) ;;
  uploaded <- attribute _uploadedDatasets ;;
  entry <- dict_get uploaded filename ;;
  let '(datasetName, geoserverLayerName) := entry in
  let url := u +:+ "/workspaces/" +:+ _workspace +:+ "/datastores/" +:+ datasetName
               +:+ "/featuretypes/" +:+ geoserverLayerName +:+ ".json" in
  r <- request_get url ;;
  ft <- lift (json_of r) ;;
  ft <- lift (set_nested ft "featureType" "name" (JStr name)) ;;
  ft <- lift (set_nested ft "featureType" "title" (JStr name)) ;;
  try_except
    (request (u +:+ "/workspaces/" +:+ _workspace +:+ "/datastores/" +:+ datasetName
                +:+ "/featuretypes") (DataDict ft) "post")
    (request url (DataDict ft) "put") ;;
  logInfo ("Feature type correctly created from GPKG file '" +:+ filename +:+ "'") ;;
  _setLayerStyle name name.

Definition _publishRasterLayer (filename layername : string) : M unit :=
  _ensureWorkspaceExists ;;
  content <- call (openRead filename) ;;
  u <- the_url ;;
  request (u +:+ "/workspaces/" +:+ _workspace +:+ "/coveragestores/" +:+ layername
             +:+ "/file.geotiff") (DataBytes content) "put" ;;
  logInfo ("Feature type correctly created from Tiff file '" +:+ filename +:+ "'") ;;
  _setLayerStyle layername layername.

(** The four files of a shapefile bundle, each with its archive name. *)
Definition shapefile_parts (basename_ : string) : list (string * string) :=
  map (fun ext => (basename_ +:+ ext, basename (basename_ +:+ ext)))
      [".shp"; ".shx"; ".prj"; ".dbf"].

(** The branch of [publishLayer] for the two storages that upload an
    exported file. *)
Definition publishVectorFromExport (layer : Layer) (fields : option (list string)) : M unit :=
  o <- get_self ;;
  exported <- attribute _exportedLayers ;;
  (match exported !! layer_source layer with
   | None =>
       if (storage o =? POSTGIS_MANAGED_BY_GEOSERVER)%Z then
         path <- call (exportLayer layer fields true true) ;;
         let basename_ := fst (splitext path) in
         let zipfilename := basename_ +:+ ".zip" in
         call (zipWrite zipfilename (shapefile_parts basename_)) ;;
         modify_self (with_exportedLayers (<[layer_source layer := zipfilename]> exported))
       else
         path <- call (exportLayer layer fields false false) ;;
         modify_self (with_exportedLayers (<[layer_source layer := path]> exported))
   | Some _ => ret tt
   end) ;;
  exported <- attribute _exportedLayers ;;
  filename <- dict_get exported (layer_source layer) ;;
  if (storage o =? FILE_BASED)%Z
  then _publishVectorLayerFromFile layer filename
  else _publishVectorLayerFromFileToPostgis layer filename.

(** [publishLayer]: a vector layer without features is reported and
    skipped, the [return] leaving the method before [_clearCache]; every
    other path ends with [_clearCache]. *)
Definition publishLayer (layer : Layer) (fields : option (list string)) : M unit :=
  match layer_type layer with
  | VectorLayer =>
      if (featureCount layer =? 0)%Z then
        logError "Layer contains zero features and cannot be published"
      else
        o <- get_self ;;
        (if String.eqb (providerName layer) "postgres" && useOriginalDataSource o then
           let uri := parseDataSourceUri (layer_source layer) in
           let db := {| db_name := "temp"; db_authid := uri_authConfigId uri;
                        db_host := uri_host uri; db_port := uri_port uri;
                        db_schema := uri_schema uri; db_database := uri_database uri |} in
           _publishVectorLayerFromPostgis layer db
         else if (storage o =? FILE_BASED)%Z || (storage o =? POSTGIS_MANAGED_BY_GEOSERVER)%Z then
           publishVectorFromExport layer fields
         else if (storage o =? POSTGIS_MANAGED_BY_BRIDGE)%Z then
           w <- get_world ;;
           match postgisdb o ≫= (fun k => allServers w !! k) with
           | None => raise (OtherError "Cannot find the selected PostGIS database")
           | Some db =>
               call (importLayer db layer fields) ;;
               _publishVectorLayerFromPostgis layer db
           end
         else ret tt) ;;
        _clearCache
  | RasterLayer =>
      exported <- attribute _exportedLayers ;;
      (match exported !! layer_source layer with
       | None =>
           path <- call (exportLayer layer fields false false) ;;
           modify_self (with_exportedLayers (<[layer_source layer := path]> exported))
       | Some _ => ret tt
       end) ;;
      exported <- attribute _exportedLayers ;;
      filename <- dict_get exported (layer_source layer) ;;
      _publishRasterLayer filename (layer_name layer) ;;
      _clearCache
  | OtherLayer => _clearCache
  end.

Definition prepareForPublishing (onlySymbology : bool) : M unit :=
  (if negb onlySymbology then deleteWorkspace else ret tt) ;;
  _ensureWorkspaceExists ;;
  modify_self (with_uploadedDatasets ∅) ;;
  modify_self (with_exportedLayers ∅) ;;
  modify_self (with_postgisDatastoreExists false) ;;
  modify_self (with_publishedLayers []).


(** [group[k]] on a group dict. *)
Definition group_get {A} (field : option A) : M A :=
  match field with
  | Some a => ret a
  | None => raise KeyError
  end.

Definition mbstyle_descriptor (name : string) : string :=
  "<style>" +:+ "<name>" +:+ name +:+ "</name>"
  +:+ "<workspace>" +:+ _workspace +:+ "</workspace>"
  +:+ "<format>" +:+ "mbstyle" +:+ "</format>"
  +:+ "<filename>" +:+ name +:+ ".json</filename>"
  +:+ "</style>".

Definition _publishGroupMapBox (group : Group) (qgis_layers : list Layer) : M unit :=
  name <- group_get (group_name group) ;;
  base <- baseUrl ;;
  name' <- group_get (group_name group) ;;
  converted <- call (convertGroup group qgis_layers base _workspace name') ;;
  let '(mbstylestring, warnings, spriteSheet) := converted in
  _ensureWorkspaceExists ;;
  styleExists <- styleExists name ;;
  (if styleExists then deleteStyle name else ret tt) ;;
  let xml := mbstyle_descriptor name in
  u <- the_url ;;
  request_h (u +:+ "/workspaces/" +:+ _workspace +:+ "/styles") (DataStr xml) "POST"
            [("Content-Type", "text/xml")] ;;
  request_h (u +:+ "/workspaces/" +:+ _workspace +:+ "/styles/" +:+ name +:+ "?raw=true")
            (DataStr mbstylestring) "PUT"
            [("Content-Type", "application/vnd.geoserver.mbstyle+json")] ;;
  match spriteSheet with
  | Some sheet =>
      img_bytes <- call (getImageBytes (sprite_img sheet)) ;;
      img2x_bytes <- call (getImageBytes (sprite_img2x sheet)) ;;
      request (u +:+ "/resource/workspaces/" +:+ _workspace +:+ "/styles/spriteSheet.png")
              (DataBytes img_bytes) "PUT" ;;
      request (u +:+ "/resource/workspaces/" +:+ _workspace +:+ "/styles/spriteSheet@2x.png")
              (DataBytes img2x_bytes) "PUT" ;;
      request (u +:+ "/resource/workspaces/" +:+ _workspace +:+ "/styles/spriteSheet.json")
              (DataStr (sprite_json sheet)) "PUT" ;;
      request (u +:+ "/resource/workspaces/" +:+ _workspace +:+ "/styles/spriteSheet@2x.json")
              (DataStr (sprite_json2x sheet)) "PUT" ;;
      ret tt
  | None => ret tt
  end.

(** One entry of [publishables]. *)
Definition publishable (type name : string) : json :=
  JObj [("@type", JStr type); ("name", JStr name)].

(** The call [self._publishGroup(layer)] made for a nested group: the
    method takes two arguments and [qgis_layers] has no default, so the
    call raises before the method body runs. *)
Definition _publishGroup_without_qgis_layers (layer : Group) : M unit := raise TypeError.

(** The loop of [_publishGroup] over [group["layers"]]: [layers] grows by
    one entry per member. *)
Fixpoint collect_publishables (members : list Member) (layers : list json) : M (list json) :=
  match members with
  | [] => ret layers
  | SubGroup layer :: rest =>
      n <- group_get (group_name layer) ;;
      let layers := (layers ++ [publishable "layerGroup" (_workspace +:+ ":" +:+ n)])%list in
      _publishGroup_without_qgis_layers layer ;;
      collect_publishables rest layers
  | LayerName layer :: rest =>
      let layers := (layers ++ [publishable "layer" (_workspace +:+ ":" +:+ layer)])%list in
      collect_publishables rest layers
  end.

Definition vector_tile_mime : string := "application/vnd.mapbox-vector-tile".

Definition groupdef (group_name_ title abstract : string) (layers : list json) : json :=
  JObj [("layerGroup",
         JObj [("name", JStr group_name_);
               ("title", JStr title);
               ("abstractTxt", JStr abstract);
               ("mode", JStr "NAMED");
               ("publishables", JObj [("published", JArr layers)])])].

Definition _publishGroup (group : Group) (qgis_layers : list Layer) : M unit :=
  _publishGroupMapBox group qgis_layers ;;
  members <- group_get (group_layers group) ;;
  layers <- collect_publishables members [] ;;
  name <- group_get (group_name group) ;;
  title <- group_get (group_title group) ;;
  abstract <- group_get (group_abstract group) ;;
  let def := groupdef name title abstract layers in
  u <- the_url ;;
  let url := u +:+ "/workspaces/" +:+ _workspace +:+ "/layergroups" in
  try_except (request (url +:+ "/" +:+ name) NoData "delete" ;; ret tt) (ret tt) ;;
  try_except (request url (DataDict def) "post") (request url (DataDict def) "put") ;;
  let url := replace u "/rest" EmptyString +:+ "/gwc/rest/layers/" +:+ _workspace +:+ ":"
               +:+ name +:+ ".xml" in
  r <- request_get url ;;
  let xml := resp_text r in
  (if negb (contains vector_tile_mime xml) then
     let xml := replace xml "<mimeFormats>"
                  ("<mimeFormats><string>" +:+ vector_tile_mime +:+ "</string>") in
     request_h url (DataStr xml) "PUT" [("Content-Type", "text/xml")] ;;
     ret tt
   else ret tt) ;;
  logInfo ("Group " +:+ name +:+ " correctly created").


(** The generator [(x["Version"] for x in result if x["@name"] == 'GeoServer')]
    advanced once by [next(..., None)]. *)
Fixpoint first_geoserver_version (result : list json) : Result json :=
  match result with
  | [] => Ok JNull
  | x :: rest =>
      match getitem x "@name" with
      | Raise e => Raise e
      | Ok n =>
          if eq_str n "GeoServer" then getitem x "Version"
          else first_geoserver_version rest
      end
  end.

Definition could_not_connect : string :=
  "Could not connect to Geoserver.  Please check the server settings (including password).".

Definition version_too_old (ver : string) : string :=
  "Geoserver 2.14.0 or later is required.  Selected Geoserver is version '" +:+ ver
  +:+ "'.  Please see <a href='https://my.geocat.net/knowledgebase/100/Bridge-4-compatibility-with-Geoserver-2134-and-before.html'>Bridge 4 Compatibility with Geoserver 2.13.4 and before</a>".

(** The second [try] block of [checkMinGeoserverVersion]: the errors to
    add for the [resource] list of the version document, or the exception
    the block ends with. *)
Definition version_errors (result : json) : Result (list string) :=
  match iter result with
  | Raise e => Raise e
  | Ok xs =>
      match first_geoserver_version xs with
      | Raise e => Raise e
      | Ok JNull => Ok []
      | Ok (JStr ver) =>
          match split ver dot with
          | [ver_major; ver_minor; ver_patch] =>
              match int ver_minor with
              | Raise e => Raise e
              | Ok minor => if (minor <=? 13)%Z then Ok [version_too_old ver] else Ok []
              end
          | _ => Raise ValueError
          end
      | Ok _ => Raise AttributeError
      end
  end.

(** [checkMinGeoserverVersion(errors)]: the set [errors] is handed back
    with what the method added to it. *)
Definition checkMinGeoserverVersion (errors : gset string) : M (gset string) :=
  u <- the_url ;;
  fetched <-
    try_except
      (r <- request_get (u +:+ "/about/version.json") ;;
       j <- lift (json_of r) ;;
       about <- lift (getitem j "about") ;;
       result <- lift (getitem about "resource") ;;
       ret (Some result))
      (ret None) ;;
  match fetched with
  | None => ret ({[ could_not_connect ]} ∪ errors)
  | Some result =>
      match version_errors result with
      | Ok added => ret (list_to_set added ∪ errors)
      | Raise _ => ret errors
      end
  end.

(** [testConnection]: the request is made and its outcome answered. *)
Definition testConnection : M bool :=
  try_except
    (u <- the_url ;;
     request_get (u +:+ "/about/version") ;;
     ret true)
    (ret false).

Definition fullLayerName (layerName : string) : string :=
  _workspace +:+ ":" +:+ layerName.

Definition layerWmsUrl (name : string) : M string :=
  base <- baseUrl ;;
  ret (base +:+ "/wms?service=WMS&version=1.1.0&request=GetCapabilities").

Definition layerWfsUrl : M string :=
  base <- baseUrl ;;
  ret (base +:+ "/wfs").

Definition layerPreviewUrl (names : list string) (bbox srs : string) : M string :=
  baseurl <- baseUrl ;;
  let names := join "," (map (fun name => _workspace +:+ ":" +:+ name) names) in
  ret (baseurl +:+ "/" +:+ _workspace +:+ "/wms?service=WMS&version=1.1.0&request=GetMap&layers="
         +:+ names +:+ "&format=application/openlayers&bbox=" +:+ bbox +:+ "&srs=" +:+ srs
         +:+ "&width=800&height=600").

Definition addPostgisDatastore (datastoreDef : json) : M unit :=
  u <- the_url ;;
  request (u +:+ "/workspaces/" +:+ _workspace +:+ "/datastores/") (DataDict datastoreDef) "post" ;;
  ret tt.

(** [uploadResource(path, file)]. *)
Definition uploadResource (path file : string) : M unit :=
  content <- call (openRead file) ;;
  u <- the_url ;;
  request (u +:+ "/resource/" +:+ path) (DataStr content) "put" ;;
  ret tt.

(** [self.request(url)] for a URL taken from a JSON document: anything
    but a string is refused before a request is made. *)
Definition request_json_url (href : json) (d : Data) (m : string) : M Response :=
  match href with
  | JStr u => request u d m
  | _ => raise (OtherError "invalid URL")
  end.

(** [setLayerMetadataLink(name, url)]. *)
Definition setLayerMetadataLink (name url : string) : M unit :=
  u <- the_url ;;
  let layerUrl := u +:+ "/workspaces/" +:+ _workspace +:+ "/layers/" +:+ name +:+ ".json" in
  r <- request_get layerUrl ;;
  j <- lift (json_of r) ;;
  l <- lift (getitem j "layer") ;;
  res <- lift (getitem l "resource") ;;
  resourceUrl <- lift (getitem res "href") ;;
  r <- request_json_url resourceUrl NoData "get" ;;
  layer <- lift (json_of r) ;;
  present <- lift (str_in "featureType" layer) ;;
  let key := if present then "featureType" else "coverage" in
  let links :=
    JObj [("metadataLink",
           JArr [JObj [("type", JStr "text/html");
                       ("metadataType", JStr "ISO19115:2003");
                       ("content", JStr url)]])] in
  layer <- lift (set_nested layer key "metadataLinks" links) ;;
  request_json_url resourceUrl (DataDict layer) "put" ;;
  ret tt.

End Methods.

(* ===================================================================== *)
(** ** A reference remote

    A small GeoServer and local machine to run the methods against: one
    project ([/home/user/proj.qgz], so the workspace is [proj]), the
    names of the workspaces, layers and styles the server holds, and the
    version document it reports.  Listings follow GeoServer's shape: an
    empty collection is the empty string, a non-empty one a dict holding
    the list of entries. *)
(* ===================================================================== *)

Module Mock.

Record Remote := {
  workspaces : list string;
  layer_names : list string;
  style_names : list string;
  version_resource : option json
}.

Definition base : string := "http://localhost:8080/geoserver/rest".
Definition ws_url : string := base +:+ "/workspaces/proj".

Definition listing (coll item : string) (names : list string) : json :=
  match names with
  | [] => JObj [(coll, JStr EmptyString)]
  | _ => JObj [(coll, JObj [(item, JArr (map (fun n => JObj [("name", JStr n)]) names))])]
  end.

Definition answer (j : json) : Result Response :=
  Ok {| resp_text := EmptyString; resp_json := Some j |}.

Definition no_content : Result Response :=
  Ok {| resp_text := EmptyString; resp_json := None |}.

Definition not_found : Result Response := Raise (RequestError "404").

(** What follows the prefix [p] in [s]. *)
Fixpoint after_go (s p : list ascii) : option (list ascii) :=
  match p, s with
  | [], _ => Some s
  | c :: p', d :: s' => if Ascii.eqb c d then after_go s' p' else None
  | _ :: _, [] => None
  end.

Definition after (s p : string) : option string := option_map str (after_go (chars s) (chars p)).

(** What precedes the suffix [p] in [s]. *)
Definition before (s p : string) : option string :=
  option_map (fun l => str (rev l)) (after_go (rev (chars s)) (rev (chars p))).

Definition remove (n : string) (l : list string) : list string :=
  List.filter (fun x => negb (String.eqb x n)) l.

Definition feature_type_template : json :=
  JObj [("featureType",
         JObj [("name", JStr "tbl");
               ("nativeName", JStr "tbl");
               ("nativeBoundingBox", JObj [("minx", JInt 0); ("maxx", JInt 1)])])].

Definition tile_layer_xml : string :=
  "<GeoServerLayer><mimeFormats><string>image/png</string></mimeFormats></GeoServerLayer>".

Definition handle_get (u : string) (r : Remote) : Result Response :=
  if String.eqb u (base +:+ "/workspaces.json") then answer (listing "workspaces" "workspace" (workspaces r))
  else if String.eqb u (ws_url +:+ "/layers.json") then answer (listing "layers" "layer" (layer_names r))
  else if String.eqb u (ws_url +:+ "/styles.json") then answer (listing "styles" "style" (style_names r))
  else if String.eqb u (ws_url +:+ "/datastores.json") then answer (listing "dataStores" "dataStore" [])
  else if String.eqb u (base +:+ "/about/version.json") then
    match version_resource r with
    | Some res => answer (JObj [("about", JObj [("resource", res)])])
    | None => not_found
    end
  else if startswith u (ws_url +:+ "/datastores/") then answer feature_type_template
  else if startswith u (ws_url +:+ "/layers/") then
    answer (JObj [("layer", JObj [("name", JStr "l"); ("type", JStr "VECTOR")])])
  else if startswith u "http://localhost:8080/geoserver/gwc/rest/layers/" then
    Ok {| resp_text := tile_layer_xml; resp_json := None |}
  else not_found.

Definition handle_post (u : string) (d : Data) (r : Remote) : Remote * Result Response :=
  if String.eqb u (base +:+ "/workspaces") then
    match d with
    | DataDict (JObj [("workspace", JObj [("name", JStr n)])]) =>
        ({| workspaces := workspaces r ++ [n]; layer_names := layer_names r;
            style_names := style_names r; version_resource := version_resource r |}, no_content)
    | _ => (r, Raise (RequestError "400"))
    end
  else
    match after u (ws_url +:+ "/styles?name=") with
    | Some n =>
        if existsb (String.eqb n) (style_names r) then (r, Raise (RequestError "403"))
        else ({| workspaces := workspaces r; layer_names := layer_names r;
                 style_names := style_names r ++ [n];
                 version_resource := version_resource r |}, no_content)
    | None => (r, no_content)
    end.

Definition handle_delete (u : string) (r : Remote) : Remote * Result Response :=
  if String.eqb u (ws_url +:+ "?recurse=true") then
    ({| workspaces := remove "proj" (workspaces r); layer_names := [];
        style_names := []; version_resource := version_resource r |}, no_content)
  else
    match after u (ws_url +:+ "/layers/") ≫= (fun rest => before rest ".json?recurse=true") with
    | Some n =>
        if existsb (String.eqb n) (layer_names r) then
          ({| workspaces := workspaces r; layer_names := remove n (layer_names r);
              style_names := style_names r; version_resource := version_resource r |}, no_content)
        else (r, not_found)
    | None => (r, not_found)
    end.

Definition handle (rq : Request) (r : Remote) : Remote * Result Response :=
  let m := lower (req_method rq) in
  if String.eqb m "get" then (r, handle_get (req_url rq) r)
  else if String.eqb m "post" then handle_post (req_url rq) (req_data rq) r
  else if String.eqb m "put" then (r, no_content)
  else if String.eqb m "delete" then handle_delete (req_url rq) r
  else (r, Raise (RequestError "405")).

#[local] Instance env : Env := {|
  World := Remote;
  transport := handle;
  absoluteFilePath := "/home/user/proj.qgz";
  parseDataSourceUri := fun _ =>
    {| uri_authConfigId := "cfg"; uri_host := "db"; uri_port := "5432";
       uri_schema := "public"; uri_database := "gis" |};
  exportLayer := fun l _ _ _ w => (w, Ok ("/tmp/" +:+ layer_name l +:+ ".gpkg"));
  zipWrite := fun _ _ w => (w, Ok tt);
  openRead := fun _ w => (w, Ok "content");
  gpkgGeometryTables := fun _ w => (w, Ok ["tbl"]);
  allServers := fun _ => ∅;
  importLayer := fun _ _ _ w => (w, Ok tt);
  getCredentials := fun _ w => (w, Ok ("user", "secret"));
  convertGroup := fun _ _ _ _ _ w => (w, Ok ("{}", [], None));
  getImageBytes := fun _ w => (w, Ok "png");
  tempFilenameInTempFolder := fun n w => (w, Ok ("/tmp/" +:+ n));
  saveLayerStyleAsZippedSld := fun _ _ w => (w, Ok []);
  py_repr := fun _ => "?"
|}.

(** A server object for the reference remote, as a publish session leaves
    it after [prepareForPublishing]. *)
Definition server (cache : LayersCache) : Self :=
  with_publishedLayers []
    (with_exportedLayers ∅
       (with_uploadedDatasets ∅
          (with_layersCache cache
             (__init__ "gs" "http://localhost:8080/geoserver" "auth" FILE_BASED None false false)))).

Definition session (cache : LayersCache) (r : Remote) : St :=
  {| self := server cache; world := r; trace := []; logged := [] |}.

Definition remote (wss lys sts : list string) : Remote :=
  {| workspaces := wss; layer_names := lys; style_names := sts;
     version_resource := None |}.

Definition reporting (ver : string) : Remote :=
  {| workspaces := []; layer_names := []; style_names := [];
     version_resource := Some (JArr [JObj [("@name", JStr "GeoServer"); ("Version", JStr ver)]]) |}.

(** A vector layer with three features, and one without any. *)
Definition roads : Layer :=
  {| layer_id := "roads_1"; layer_type := VectorLayer; featureCount := 3;
     providerName := "ogr"; layer_source := "/data/roads.shp"; layer_name := "roads";
     layer_extent := {| xMinimum := S754_finite true 5 (-2);
                        xMaximum := S754_finite false 7 (-1);
                        yMinimum := S754_finite true 3 0;
                        yMaximum := S754_finite false 9 (-3) |};
     crs_authid := "EPSG:4326" |}.

(** A layer surveyed to more than five decimal places: its extent is
    -0.123456789 to 5.9876543210123 by 51.000005 to 52.37403527. *)
Definition parcels : Layer :=
  {| layer_id := "parcels_1"; layer_type := VectorLayer; featureCount := 12;
     providerName := "ogr"; layer_source := "/data/parcels.shp"; layer_name := "parcels";
     layer_extent := {| xMinimum := S754_finite true 8895999182988127 (-56);
                        xMaximum := S754_finite false 6741499442233584 (-50);
                        yMinimum := S754_finite false 7177612609809170 (-47);
                        yMaximum := S754_finite false 7370990178933163 (-47) |};
     crs_authid := "EPSG:4326" |}.

Definition empty_layer : Layer :=
  {| layer_id := "empty_1"; layer_type := VectorLayer; featureCount := 0;
     providerName := "ogr"; layer_source := "/data/empty.shp"; layer_name := "empty";
     layer_extent := layer_extent roads; crs_authid := "EPSG:4326" |}.



(** The same tree with the leaf [L1] written as a layer name:
    [{name: G, layers: [L1, {name: G2, layers: [L2]}]}]. *)
Definition nested_tree_leaf_name : Group :=
  mkGroup (Some "G") (Some "Group G") (Some "about G")
    (Some [LayerName "L1";
           SubGroup (mkGroup (Some "G2") (Some "G2") (Some "about G2")
                             (Some [LayerName "L2"]))]).


End Mock.

(* ===================================================================== *)
(** ** Vocabulary of the properties *)
(* ===================================================================== *)

Open Scope list_scope.

Section Vocabulary.
Context {E : Env}.

(** The request [self.request(url)] sends. *)
Definition get_request (u : string) : Request :=
  {| req_url := u; req_data := NoData; req_method := "get"; req_headers := []; req_files := [] |}.

(** [_exists] asks the server: always for a style, workspace or
    datastore, and for a layer when the cache is [None]. *)
Definition probes (category : string) (st : St) : bool :=
  negb (String.eqb category "layer") || cache_is_None (_layersCache (self st)).

(** A method's result is [True]. *)
Definition answered_true (r : Result bool) : bool :=
  match r with
  | Ok true => true
  | _ => false
  end.

(** Requests that carry a file's bytes. *)
Definition is_upload (rq : Request) : bool :=
  match req_data rq with
  | DataBytes _ => true
  | _ => false
  end.

Definition uploads (l : list Request) : list Request := List.filter is_upload l.

(** The requests a method sends when started in [st], oldest first. *)
Definition sent {A} (m : M A) (st : St) : list Request :=
  drop (length (trace st)) (trace (fst (m st))).

(** [j[k1][k2]...]. *)
Fixpoint lookup_path (j : json) (path : list string) : Result json :=
  match path with
  | [] => Ok j
  | k :: rest =>
      match getitem j k with
      | Ok v => lookup_path v rest
      | Raise e => Raise e
      end
  end.

(** The existence check [_publishStyle] starts with. *)
Definition style_probe (name : string) : M bool :=
  _ensureWorkspaceExists ;; styleExists name.

End Vocabulary.

(* ===================================================================== *)
(** ** The connection form ([ui/serverconnectionswidget.py])

    [ServerConnectionsWidget.createGeoserverServer] reads the widgets of
    the GeoServer page and builds the server object; the widgets' values
    are gathered here in a record. *)
(* ===================================================================== *)

Record GeoserverForm := {
  txtGeoserverName : string;            (* txtGeoserverName.text() *)
  txtGeoserverUrl : string;             (* txtGeoserverUrl.text() *)
  geoserverAuth : string;               (* geoserverAuth.configId() *)
  comboGeoserverDataStorage : Z;        (* comboGeoserverDataStorage.currentIndex() *)
  comboGeoserverDatabase : string;      (* comboGeoserverDatabase.currentText() *)
  chkUseOriginalDataSource : bool;      (* chkUseOriginalDataSource.isChecked() *)
  chkUseVectorTiles : bool              (* chkUseVectorTiles.isChecked() *)
}.

(** [createGeoserverServer]: [None] without credentials, name or URL. *)
Definition createGeoserverServer (form : GeoserverForm) : option Self :=
  let name := strip_space (txtGeoserverName form) in
  let url := strip_space (txtGeoserverUrl form) in
  let authid := geoserverAuth form in
  if negb (truthy authid) then None
  else
    let storage := comboGeoserverDataStorage form in
    let postgisdb :=
      if (storage =? POSTGIS_MANAGED_BY_BRIDGE)%Z || (storage =? POSTGIS_MANAGED_BY_GEOSERVER)%Z
      then Some (comboGeoserverDatabase form)
      else None in
    let useOriginalDataSource := chkUseOriginalDataSource form in
    let useVectorTiles := chkUseVectorTiles form in
    if existsb (String.eqb EmptyString) [name; url] then None
    else Some (__init__ name url authid storage postgisdb useOriginalDataSource useVectorTiles).


(* ===================================================================== *)
(** ** Validation before publication *)
(* ===================================================================== *)

(** The answer to [QMessageBox.question(..., Yes | No)]. *)
Inductive Button := Yes | No.

(** The dialog the validation may open. *)
Class Dialogs {E : Env} := {
  question : string -> string -> World -> World * Result Button
}.

Section Validation.
Context {E : Env} {D : Dialogs}.

Definition not_saved : string :=
  "QGIS Project is not saved. Project must be saved before publishing layers to GeoServer".

Definition unsupported_characters : string :=
  "QGIS project name contains unsupported characters ('.'). Save with a different name and try again".

Definition cannot_overwrite : string := "Cannot overwrite existing workspace".

Definition overwrite_question : string :=
  "A workspace with that name exists and contains layers that are not going to be published."
  +:+ String (ascii_of_nat 10) "Those layers will be deleted."
  +:+ String (ascii_of_nat 10) "Do you want to proceed?".

(** [validateGeodataBeforePublication(errors, toPublish)].  The set
    [errors] is filled in place, so what was added stays when the method
    raises: the result is the set as the method leaves it, together with
    how the method ended. *)
Definition validateGeodataBeforePublication (errors : gset string) (toPublish : list string)
    (st : St) : St * gset string * Result unit :=
  let path := absoluteFilePath in
  let errors := if negb (truthy path) then {[ not_saved ]} ∪ errors else errors in
  let errors := if contains "." _workspace then {[ unsupported_characters ]} ∪ errors
                else errors in
  match willDeleteLayersOnPublication toPublish st with
  | (st1, Raise e) => (st1, errors, Raise e)
  | (st1, Ok will) =>
      let '(st2, errors, asked) :=
        if will then
          match call (question "Workspace" overwrite_question) st1 with
          | (st2, Raise e) => (st2, errors, Raise e)
          | (st2, Ok No) => (st2, {[ cannot_overwrite ]} ∪ errors, Ok tt)
          | (st2, Ok Yes) => (st2, errors, Ok tt)
          end
        else (st1, errors, Ok tt) in
      match asked with
      | Raise e => (st2, errors, Raise e)
      | Ok _ =>
          match checkMinGeoserverVersion errors st2 with
          | (st3, Ok errors) => (st3, errors, Ok tt)
          | (st3, Raise e) => (st3, errors, Raise e)
          end
      end
  end.

End Validation.


(* ===================================================================== *)
(** ** Properties *)
(* ===================================================================== *)

(** *** The built-ins on examples *)

Example strip_slashes : strip "/a/b/rest//" slash = "a/b/rest".
Proof. reflexivity. Qed.

Example split_version : split "2.14.0" dot = ["2"; "14"; "0"].
Proof. reflexivity. Qed.

Example split_empty : split EmptyString dot = [EmptyString].
Proof. reflexivity. Qed.

Example replace_rest : replace "http://h/rest/x/rest" "/rest" EmptyString = "http://h/x".
Proof. reflexivity. Qed.

Example replace_no_overlap : replace "aaa" "aa" "b" = "ba".
Proof. reflexivity. Qed.

Example splitext_zip : splitext "/tmp/x.y/style.ZIP" = ("/tmp/x.y/style", ".ZIP").
Proof. reflexivity. Qed.

Example splitext_leading_dot : splitext "/tmp/x.y/.bashrc" = ("/tmp/x.y/.bashrc", EmptyString).
Proof. reflexivity. Qed.

Example basename_file : basename "/home/user/proj.qgz" = "proj.qgz".
Proof. reflexivity. Qed.

Example int_underscore : int " 1_3 " = Ok 13%Z.
Proof. reflexivity. Qed.

Example int_snapshot : int "14-SNAPSHOT" = Raise ValueError.
Proof. reflexivity. Qed.

Example join_url : join "/" ["http:"; EmptyString; "h"; "geoserver"] = "http://h/geoserver".
Proof. reflexivity. Qed.

Example empty_listing_has_no_layer : str_in "layer" (JStr EmptyString) = Ok false.
Proof. reflexivity. Qed.

(** *** The constructor's URL *)

(** C7 (evaluation at the failing input).  A URL that already ends in
    [/rest/] is not recognised as carrying the suffix, because the test
    [endswith("rest")] runs before the slashes are stripped: the stored
    URL ends in [/rest/rest]. *)
Theorem init_url_trailing_slash_doubles_rest :
  self_url (__init__ "gs" "http://localhost:8080/geoserver/rest/" "auth"
                     FILE_BASED None false false)
  = "http://localhost:8080/geoserver/rest/rest".
Proof. reflexivity. Qed.

(** With no trailing slash the same URL is stored as it is. *)
Lemma init_url_with_rest :
  self_url (__init__ "gs" "http://localhost:8080/geoserver/rest" "auth"
                     FILE_BASED None false false)
  = "http://localhost:8080/geoserver/rest".
Proof. reflexivity. Qed.

(** A URL that merely ends in the letters [rest] is taken to carry the
    suffix. *)
Lemma init_url_ending_in_rest_letters :
  self_url (__init__ "gs" "http://example.org/forest" "auth" FILE_BASED None false false)
  = "http://example.org/forest".
Proof. reflexivity. Qed.

(** *** The version check *)

(** C3 (evaluation at the failing input).  Only the minor number is
    compared: GeoServer 3.0.0 is reported as too old, while 1.20.0 passes. *)
Theorem version_check_ignores_major :
  snd (checkMinGeoserverVersion (E := Mock.env) ∅
         (Mock.session CacheNone (Mock.reporting "3.0.0")))
    = Ok {[ version_too_old "3.0.0" ]}
  /\ snd (checkMinGeoserverVersion (E := Mock.env) ∅
            (Mock.session CacheNone (Mock.reporting "1.20.0")))
    = Ok ∅.
Proof. split; vm_compute; reflexivity. Qed.

(** *** Layer deletion and the layer cache *)

(** C1 (evaluation at the failing input).  On a workspace holding the
    layers [a] and [b], with the cache cleared, [deleteLayer "a"] removes
    the layer on the server and leaves the names fetched by its own
    existence check in the cache; the next [layerExists "a"] answers
    [True] from that cache and sends nothing. *)
Theorem deleteLayer_leaves_cache :
  let st0 := Mock.session CacheNone (Mock.remote ["proj"] ["a"; "b"] []) in
  let st1 := fst (deleteLayer (E := Mock.env) "a" true st0) in
  snd (deleteLayer (E := Mock.env) "a" true st0) = Ok tt
  /\ Mock.layer_names (world st1) = ["b"]
  /\ _layersCache (self st1) = CacheItems [JStr "a"; JStr "b"]
  /\ layerExists (E := Mock.env) "a" st1 = (st1, Ok true).
Proof. vm_compute. repeat split; reflexivity. Qed.

Section Properties.
Context {E : Env}.

(** *** Running the monad *)

Lemma bind_ok_inv {A B} (m : M A) (k : A -> M B) st st' b :
  bind m k st = (st', Ok b) ->
  exists a st1, m st = (st1, Ok a) /\ k a st1 = (st', Ok b).
Proof.
  unfold bind. destruct (m st) as [st1 [a|e]]; [eauto | discriminate].
Qed.

Lemma try_except_never_raises {A} (m : M A) (a : A) st :
  exists a', snd (try_except m (ret a) st) = Ok a'.
Proof.
  unfold try_except, ret. destruct (m st) as [st1 [a1|e]]; simpl; eauto.
Qed.

Lemma bind_never_raises {A B} (m : M A) (k : A -> M B) :
  (forall st, exists a, snd (m st) = Ok a) ->
  (forall a st, exists b, snd (k a st) = Ok b) ->
  forall st, exists b, snd (bind m k st) = Ok b.
Proof.
  intros Hm Hk st. unfold bind. destruct (Hm st) as [a Ha].
  destruct (m st) as [st1 r]; simpl in Ha; subst r. apply Hk.
Qed.

(** *** Publishing a layer without features *)

(** C4.  For a vector layer with no features [publishLayer] returns
    normally, and the state it leaves differs from the one it found only
    by the error line in the log: no request was sent, the world is the
    same and so is every attribute of the object, the layer cache and the
    session's maps included. *)
Theorem publishLayer_zero_features st layer fields :
  layer_type layer = VectorLayer ->
  featureCount layer = 0%Z ->
  publishLayer layer fields st
  = ({| self := self st; world := world st; trace := trace st;
        logged := logged st ++ [(Error, "Layer contains zero features and cannot be published")] |},
     Ok tt).
Proof.
  intros Hty Hcount. unfold publishLayer. rewrite Hty, Hcount. reflexivity.
Qed.

(** *** Existence checks *)

Lemma exists_never_raises url category name st :
  exists b, snd (_exists url category name st) = Ok b.
Proof. unfold _exists. apply try_except_never_raises. Qed.

Lemma the_url_never_raises st : exists u, snd (the_url st) = Ok u.
Proof. unfold the_url, bind, get_self, ret. simpl. eauto. Qed.



(** *** Framing: what a method leaves alone

    [respects I R m]: started in a state satisfying [I], the method [m]
    ends, whether it returns or raises, in a state that satisfies [I]
    again and is related to the first by [R].  A [Frame] is a pair
    [(I, R)] that steps outside the object and the request history cannot
    break. *)

Definition set_world (w : World) (st : St) : St :=
  {| self := self st; world := w; trace := trace st; logged := logged st |}.

Definition set_logged (l : list (Level * string)) (st : St) : St :=
  {| self := self st; world := world st; trace := trace st; logged := l |}.

Class Frame (I : St -> Prop) (R : St -> St -> Prop) : Prop := {
  frame_refl : forall st, R st st;
  frame_trans : forall a b c, R a b -> R b c -> R a c;
  frame_world : forall st w, I st -> I (set_world w st) /\ R st (set_world w st);
  frame_logged : forall st l, I st -> I (set_logged l st) /\ R st (set_logged l st)
}.

Definition respects (I : St -> Prop) (R : St -> St -> Prop) {A} (m : M A) : Prop :=
  forall st, I st -> I (fst (m st)) /\ R st (fst (m st)).

Section Framing.
Context (I : St -> Prop) (R : St -> St -> Prop) `{!Frame I R}.

Lemma respects_ret {A} (a : A) : respects I R (ret a).
Proof. intros st HI. split; [exact HI | apply frame_refl]. Qed.

Lemma respects_raise {A} (e : Exn) : respects I R (raise (A := A) e).
Proof. intros st HI. split; [exact HI | apply frame_refl]. Qed.

Lemma respects_lift {A} (r : Result A) : respects I R (lift r).
Proof. intros st HI. split; [exact HI | apply frame_refl]. Qed.

Lemma respects_get_self : respects I R get_self.
Proof. intros st HI. split; [exact HI | apply frame_refl]. Qed.

Lemma respects_get_world : respects I R get_world.
Proof. intros st HI. split; [exact HI | apply frame_refl]. Qed.

Lemma respects_the_url : respects I R the_url.
Proof. intros st HI. split; [exact HI | apply frame_refl]. Qed.

Lemma respects_attribute {A} (f : Self -> option A) : respects I R (attribute f).
Proof.
  intros st HI. unfold attribute. destruct (f (self st)); (split; [exact HI | apply frame_refl]).
Qed.

Lemma respects_call {A} (f : World -> World * Result A) : respects I R (call f).
Proof.
  intros st HI. unfold call. destruct (f (world st)) as [w r].
  apply (frame_world st w HI).
Qed.

Lemma respects_log lv msg : respects I R (log_line lv msg).
Proof. intros st HI. apply (frame_logged st _ HI). Qed.

Lemma respects_bind {A B} (m : M A) (k : A -> M B) :
  respects I R m -> (forall a, respects I R (k a)) -> respects I R (bind m k).
Proof.
  intros Hm Hk st HI. unfold bind. destruct (Hm st HI) as [HI1 HR1].
  destruct (m st) as [st1 [a|e]]; cbn [fst] in *.
  - destruct (Hk a st1 HI1) as [HI2 HR2]. split; [exact HI2|].
    eapply frame_trans; eassumption.
  - split; assumption.
Qed.

(** A pure step hands its value on: the rest only runs when it is [Ok]. *)
Lemma respects_bind_lift {A B} (r : Result A) (k : A -> M B) :
  (forall a, r = Ok a -> respects I R (k a)) -> respects I R (bind (lift r) k).
Proof.
  intros Hk st HI. unfold bind, lift. destruct r as [a|e].
  - apply (Hk a eq_refl st HI).
  - split; [exact HI | apply frame_refl].
Qed.

Lemma respects_try {A} (m h : M A) :
  respects I R m -> respects I R h -> respects I R (try_except m h).
Proof.
  intros Hm Hh st HI. unfold try_except. destruct (Hm st HI) as [HI1 HR1].
  destruct (m st) as [st1 [a|e]]; cbn [fst] in *.
  - split; assumption.
  - destruct (Hh st1 HI1) as [HI2 HR2]. split; [exact HI2|].
    eapply frame_trans; eassumption.
Qed.

Lemma respects_for_each {A} (l : list A) (body : A -> M unit) :
  (forall a, respects I R (body a)) -> respects I R (for_each l body).
Proof.
  intros Hb. induction l as [|x l IH]; cbn [for_each].
  - apply respects_ret.
  - apply respects_bind; [apply Hb | intros _; exact IH].
Qed.

End Framing.

(** Framing goals are taken apart along the method's text; [base] closes
    the steps that touch the object or send a request. *)
Ltac frame_goal := match goal with |- Frame _ _ => exact _ end.

Ltac frame_with base :=
  repeat first
    [ frame_goal
    | apply respects_ret | apply respects_raise | apply respects_lift
    | apply respects_get_self | apply respects_get_world | apply respects_the_url
    | apply respects_attribute | apply respects_call | apply respects_log
    | base
    | apply respects_try; [frame_goal | |]
    | apply respects_for_each; [frame_goal | intros ?]
    | apply respects_bind_lift; [frame_goal | intros ? ?]
    | apply respects_bind; [frame_goal | | intros ?]
    | match goal with
      | |- respects _ _ (if ?b then _ else _) => destruct b
      | |- respects _ _ (match ?x with _ => _ end) => destruct x
      | |- respects _ _ (let '(_, _) := ?x in _) => destruct x
      end ].

(** **** The object is left alone *)

Definition same_self (st st' : St) : Prop := self st' = self st.

#[local] Instance same_self_frame : Frame (fun _ => True) same_self.
Proof.
  split; unfold same_self.
  - reflexivity.
  - intros a b c H1 H2. congruence.
  - intros st w _. split; [exact Logic.I | reflexivity].
  - intros st l _. split; [exact Logic.I | reflexivity].
Qed.

Definition keeps_self {A} (m : M A) : Prop := respects (fun _ => True) same_self m.

Lemma keeps_self_request_full u d m h f : keeps_self (request_full u d m h f).
Proof.
  intros st _. split; [exact Logic.I|]. unfold same_self, request_full.
  destruct (transport _ _). reflexivity.
Qed.

Ltac keeps_self_base :=
  first [ apply keeps_self_request_full
        | unfold request_get; apply keeps_self_request_full
        | unfold request; apply keeps_self_request_full
        | unfold request_h; apply keeps_self_request_full ].

(** Outside the [layer] category [_exists] writes no attribute. *)
Lemma exists_keeps_self url category name :
  String.eqb category "layer" = false ->
  keeps_self (_exists url category name).
Proof.
  intros Hc. unfold keeps_self, _exists. rewrite Hc. cbn [negb orb].
  frame_with keeps_self_base.
Qed.

Lemma workspaceExists_keeps_self st :
  self (fst (workspaceExists st)) = self st.
Proof.
  assert (H : keeps_self workspaceExists).
  { unfold keeps_self, workspaceExists.
    apply respects_bind; [frame_goal | apply respects_the_url; frame_goal |].
    intros u. apply exists_keeps_self. reflexivity. }
  apply (H st Logic.I).
Qed.

Lemma ensureWorkspaceExists_keeps_self st :
  self (fst (_ensureWorkspaceExists st)) = self st.
Proof.
  unfold _ensureWorkspaceExists, bind.
  pose proof (workspaceExists_keeps_self st) as Hw.
  destruct (workspaceExists st) as [st1 [ex|e]]; cbn [fst] in Hw; [|exact Hw].
  destruct ex; cbn [negb]; [exact Hw|].
  unfold the_url, bind, get_self, ret, request.
  pose proof (proj2 (keeps_self_request_full (self_url (self st1) +:+ "/workspaces")
                (DataDict (JObj [("workspace", JObj [("name", JStr _workspace)])]))
                "post" [] [] st1 Logic.I)) as Hr. unfold same_self in Hr.
  destruct (request_full _ _ _ _ _ st1) as [st2 [r|e]]; cbn [fst] in *; congruence.
Qed.

(** [deleteWorkspace] clears the layer cache when it deleted something,
    and only then. *)
Lemma deleteWorkspace_cache st st1 :
  deleteWorkspace st = (st1, Ok tt) ->
  self st1 = if answered_true (snd (workspaceExists st))
             then with_layersCache CacheNone (self st)
             else self st.
Proof.
  unfold deleteWorkspace, bind.
  pose proof (workspaceExists_keeps_self st) as Hw.
  destruct (workspaceExists st) as [st0 [ex|e]]; cbn [fst snd] in *; [|discriminate].
  destruct ex; cbn [answered_true].
  - unfold the_url, bind, get_self, ret, request, _clearCache, modify_self.
    pose proof (proj2 (keeps_self_request_full (self_url (self st0) +:+ "/workspaces/" +:+ _workspace
                                     +:+ "?recurse=true") NoData "delete" [] [] st0 Logic.I)) as Hr.
    unfold same_self in Hr.
    destruct (request_full _ _ _ _ _ st0) as [st2 [r|e]]; cbn [fst] in *; [|discriminate].
    intros H. injection H as <-. cbn [self]. congruence.
  - unfold ret. intros H. injection H as <-. exact Hw.
Qed.

(** *** Preparing a session *)

(** C6, as amended.  When [prepareForPublishing] returns, the two dataset
    maps and the set of published layers are empty.  The layer cache is
    cleared ([None]) when the workspace was found and deleted, which needs
    [onlySymbology] to be false; otherwise it is what it was. *)
Theorem prepareForPublishing_resets st onlySymbology st' :
  prepareForPublishing onlySymbology st = (st', Ok tt) ->
  _uploadedDatasets (self st') = Some ∅
  /\ _exportedLayers (self st') = Some ∅
  /\ _publishedLayers (self st') = Some []
  /\ _layersCache (self st')
     = if negb onlySymbology && answered_true (snd (workspaceExists st))
       then CacheNone
       else _layersCache (self st).
Proof.
  unfold prepareForPublishing. intros H.
  apply bind_ok_inv in H as ([] & st1 & Hdel & H).
  apply bind_ok_inv in H as ([] & st2 & Hens & H).
  pose proof (ensureWorkspaceExists_keeps_self st1) as Hs2.
  rewrite Hens in Hs2. cbn [fst] in Hs2.
  unfold bind, modify_self in H. cbn in H. injection H as <-. cbn [self].
  rewrite Hs2.
  assert (Hcache : _layersCache (self st1)
                   = if negb onlySymbology && answered_true (snd (workspaceExists st))
                     then CacheNone else _layersCache (self st)).
  { destruct onlySymbology; cbn [negb andb].
    - unfold ret in Hdel. injection Hdel as <-. reflexivity.
    - apply deleteWorkspace_cache in Hdel. rewrite Hdel.
      destruct (answered_true _); reflexivity. }
  repeat split; try reflexivity. exact Hcache.
Qed.

(** *** Layers a publication would delete *)

Lemma forallb_hashable_names names : forallb hashable (map JStr names) = true.
Proof. induction names; simpl; auto. Qed.

Lemma existsb_eq_str n toPublish :
  existsb (eq_str (JStr n)) toPublish = true <-> In n toPublish.
Proof.
  rewrite existsb_exists. split.
  - intros (x & Hin & Heq). simpl in Heq. apply String.eqb_eq in Heq. subst. exact Hin.
  - intros Hin. exists n. split; [exact Hin | simpl; apply String.eqb_refl].
Qed.

Lemma extra_layer_iff names toPublish :
  existsb (fun l => negb (existsb (eq_str l) toPublish)) (map JStr names) = true
  <-> exists n, In n names /\ ~ In n toPublish.
Proof.
  rewrite existsb_exists. split.
  - intros (x & Hin & Hneg). apply in_map_iff in Hin as (n & <- & Hn).
    exists n. split; [exact Hn|]. intros Hp. apply existsb_eq_str in Hp.
    rewrite Hp in Hneg. discriminate.
  - intros (n & Hn & Hnot). exists (JStr n). split; [apply in_map; exact Hn|].
    destruct (existsb (eq_str (JStr n)) toPublish) eqn:Hex; [|reflexivity].
    apply existsb_eq_str in Hex. contradiction.
Qed.

(** C10.  [willDeleteLayersOnPublication] first asks whether the
    workspace exists.  If not, it answers [False] and asks nothing more.
    If it does and the workspace's layers are listed, it answers [True]
    exactly when a listed layer is not in [toPublish]. *)
Theorem willDeleteLayersOnPublication_spec st toPublish st1 ex :
  workspaceExists st = (st1, Ok ex) ->
  if ex then
    forall st2 names,
      layers st1 = (st2, Ok (map JStr names)) ->
      exists b, willDeleteLayersOnPublication toPublish st = (st2, Ok b)
                /\ (b = true <-> exists n, In n names /\ ~ In n toPublish)
  else willDeleteLayersOnPublication toPublish st = (st1, Ok false).
Proof.
  intros Hws. unfold willDeleteLayersOnPublication, bind. rewrite Hws.
  destruct ex; [|reflexivity].
  intros st2 names Hl. rewrite Hl, forallb_hashable_names.
  eexists. split; [reflexivity|]. apply extra_layer_iff.
Qed.


(** *** Framing the request history

    [emits P u m]: on an object whose URL is [u], the method [m] keeps the
    URL and sends only requests that satisfy [P]. *)

Definition url_is (u : string) (st : St) : Prop := self_url (self st) = u.

Definition emitting (P : Request -> Prop) (st st' : St) : Prop :=
  exists l, trace st' = trace st ++ l /\ Forall P l.

#[local] Instance emitting_frame P u : Frame (url_is u) (emitting P).
Proof.
  split; unfold emitting, url_is.
  - intros st. exists []. split; [symmetry; apply app_nil_r | constructor].
  - intros a b c (l1 & H1 & F1) (l2 & H2 & F2). exists (l1 ++ l2). split.
    + rewrite H2, H1. symmetry. apply app_assoc.
    + apply Forall_app. split; assumption.
  - intros st w H. split; [exact H|]. exists []. split; [symmetry; apply app_nil_r | constructor].
  - intros st l H. split; [exact H|]. exists []. split; [symmetry; apply app_nil_r | constructor].
Qed.

Definition emits (P : Request -> Prop) (u : string) {A} (m : M A) : Prop :=
  respects (url_is u) (emitting P) m.

Lemma emits_request_full (P : Request -> Prop) u0 u d m h f :
  P {| req_url := u; req_data := d; req_method := m; req_headers := h; req_files := f |} ->
  emits P u0 (request_full u d m h f).
Proof.
  intros HP st HI. unfold request_full. destruct (transport _ _) as [w r]. cbn [fst].
  split; [exact HI|]. eexists. split; [reflexivity|]. constructor; [exact HP | constructor].
Qed.

Lemma emits_modify_self (P : Request -> Prop) u (f : Self -> Self) :
  (forall o, self_url (f o) = self_url o) -> emits P u (modify_self f).
Proof.
  intros Hf st HI. unfold modify_self, url_is in *. cbn [fst self]. split.
  - rewrite Hf. exact HI.
  - exists []. split; [symmetry; apply app_nil_r | constructor].
Qed.

(** The URL a method reads is the one it was started with. *)
Lemma emits_bind_the_url (P : Request -> Prop) u {B} (k : string -> M B) :
  emits P u (k u) -> emits P u (bind the_url k).
Proof.
  intros Hk st HI. unfold bind, the_url, get_self, ret. cbn.
  unfold url_is in HI. rewrite HI. apply Hk. exact HI.
Qed.

Lemma emits_bind_ret (P : Request -> Prop) u {A B} (a : A) (k : A -> M B) :
  emits P u (k a) -> emits P u (bind (ret a) k).
Proof. intros Hk st HI. apply Hk. exact HI. Qed.

Lemma emits_sent (P : Request -> Prop) u {A} (m : M A) st :
  emits P u m -> url_is u st -> Forall P (sent m st).
Proof.
  intros Hm HI. destruct (Hm st HI) as [_ (l & Hl & HF)].
  unfold sent. rewrite Hl, drop_app_length. exact HF.
Qed.

Lemma emits_weaken (P Q : Request -> Prop) u {A} (m : M A) :
  (forall rq, P rq -> Q rq) -> emits P u m -> emits Q u m.
Proof.
  intros HPQ Hm st HI. destruct (Hm st HI) as [H1 (l & Hl & HF)].
  split; [exact H1|]. exists l. split; [exact Hl|].
  eapply Forall_impl; [exact HF | exact HPQ].
Qed.

Ltac emits_setters :=
  first [ apply emits_modify_self; intros ?; reflexivity
        | unfold _clearCache; apply emits_modify_self; intros ?; reflexivity ].

(** [solve_request] proves [P] of one request. *)
Ltac emits_base solve_request :=
  first [ emits_setters
        | apply emits_bind_the_url
        | apply emits_bind_ret
        | apply emits_request_full; solve_request
        | unfold request_get; apply emits_request_full; solve_request
        | unfold request; apply emits_request_full; solve_request
        | unfold request_h; apply emits_request_full; solve_request
        | unfold logInfo, logWarning, logError; apply respects_log; frame_goal ].

(** [_exists] sends at most its one GET. *)
Lemma exists_emits (P : Request -> Prop) u url category name :
  P (get_request url) -> emits P u (_exists url category name).
Proof.
  intros HP. unfold emits, _exists.
  frame_with ltac:(emits_base ltac:(exact HP)).
Qed.


(** *** Publishing a style twice *)

Definition no_upload (rq : Request) : Prop := is_upload rq = false.

Lemma uploads_none l : Forall no_upload l -> uploads l = [].
Proof.
  unfold uploads. induction 1 as [|rq l Hrq _ IH]; [reflexivity|].
  cbn [List.filter]. unfold no_upload in Hrq. rewrite Hrq. exact IH.
Qed.

Lemma ensureWorkspaceExists_no_upload u : emits no_upload u _ensureWorkspaceExists.
Proof.
  unfold emits, _ensureWorkspaceExists, workspaceExists.
  frame_with ltac:(first [ apply exists_emits; reflexivity | emits_base ltac:(reflexivity) ]).
Qed.

Lemma styleExists_no_upload u name : emits no_upload u (styleExists name).
Proof.
  unfold emits, styleExists.
  frame_with ltac:(first [ apply exists_emits; reflexivity | emits_base ltac:(reflexivity) ]).
Qed.

(** The style upload [_publishStyle] sends. *)
Definition style_upload (u name : string) (present : bool) (content : string) : Request :=
  {| req_url := if present
                then u +:+ "/workspaces/" +:+ _workspace +:+ "/styles/" +:+ name
                else u +:+ "/workspaces/" +:+ _workspace +:+ "/styles?name=" +:+ name;
     req_data := DataBytes content;
     req_method := if present then "put" else "post";
     req_headers := [("Content-type", "application/zip")];
     req_files := [] |}.

(** One call of [_publishStyle] for a zipped style that returns: the only
    upload it sends is decided by its existence check. *)
Lemma publishStyle_once st name styleFilename present st1 :
  lower (snd (splitext styleFilename)) = ".zip" ->
  snd (style_probe name st) = Ok present ->
  _publishStyle name styleFilename st = (st1, Ok tt) ->
  self_url (self st1) = self_url (self st)
  /\ exists content,
       uploads (sent (_publishStyle name styleFilename) st)
       = [style_upload (self_url (self st)) name present content].
Proof.
  intros Hext Hprobe Hrun. unfold sent. rewrite Hrun. cbn [fst].
  unfold style_probe, _publishStyle in *. unfold bind at 1 in Hprobe. unfold bind at 1 in Hrun.
  destruct (ensureWorkspaceExists_no_upload (self_url (self st)) st eq_refl)
    as [Hu1 (l1 & Hl1 & HF1)].
  destruct (_ensureWorkspaceExists st) as [sa [[]|e]]; cbn [fst snd] in *; [|discriminate].
  unfold bind at 1 in Hrun.
  destruct (styleExists_no_upload (self_url (self st)) name sa Hu1)
    as [Hu2 (l2 & Hl2 & HF2)].
  destruct (styleExists name sa) as [sb [ex|e]]; cbn [fst snd] in *; [|discriminate].
  injection Hprobe as ->.
  unfold bind at 1 in Hrun. unfold the_url, bind, get_self, ret in Hrun. cbn [fst snd] in Hrun.
  unfold url_is in Hu2. rewrite Hu2 in Hrun. rewrite Hext, String.eqb_refl in Hrun.
  unfold call, request_h, request_full, logInfo, log_line in Hrun.
  revert Hrun.
  destruct present; cbn [fst snd];
    match goal with
    | |- context [openRead ?f ?w0] => destruct (openRead f w0) as [w [content|e]]
    end; cbn; try discriminate;
    match goal with
    | |- context [transport ?rq ?w0] => destruct (transport rq w0) as [w' [r|e]]
    end; cbn; try discriminate;
    intros Hrun; injection Hrun as <-; cbn [self trace]; (split; [exact Hu2|]); exists content;
    rewrite Hl2, Hl1, <- !app_assoc, drop_app_length;
    unfold uploads; rewrite !List.filter_app;
    fold (uploads l1); fold (uploads l2);
    rewrite (uploads_none l1 HF1), (uploads_none l2 HF2); reflexivity.
Qed.

(** C5.  Two calls of [_publishStyle] in a row for the same zipped style,
    both returning, where the first existence check finds the style absent
    and the second finds it present: the only upload of the first call is
    a POST to the workspace's style collection, the only upload of the
    second a PUT to the named style. *)
Theorem publish_same_style_twice st name styleFilename st1 st2 :
  lower (snd (splitext styleFilename)) = ".zip" ->
  snd (style_probe name st) = Ok false ->
  _publishStyle name styleFilename st = (st1, Ok tt) ->
  snd (style_probe name st1) = Ok true ->
  _publishStyle name styleFilename st1 = (st2, Ok tt) ->
  exists content1 content2,
    uploads (sent (_publishStyle name styleFilename) st)
    = [ {| req_url := self_url (self st) +:+ "/workspaces/" +:+ _workspace
                        +:+ "/styles?name=" +:+ name;
           req_data := DataBytes content1;
           req_method := "post";
           req_headers := [("Content-type", "application/zip")];
           req_files := [] |} ]
    /\ uploads (sent (_publishStyle name styleFilename) st1)
       = [ {| req_url := self_url (self st) +:+ "/workspaces/" +:+ _workspace
                           +:+ "/styles/" +:+ name;
              req_data := DataBytes content2;
              req_method := "put";
              req_headers := [("Content-type", "application/zip")];
              req_files := [] |} ].
Proof.
  intros Hext Hp1 Hr1 Hp2 Hr2.
  destruct (publishStyle_once st name styleFilename false st1 Hext Hp1 Hr1) as [Hu (c1 & H1)].
  destruct (publishStyle_once st1 name styleFilename true st2 Hext Hp2 Hr2) as [_ (c2 & H2)].
  exists c1, c2. rewrite H1, H2, Hu. split; reflexivity.
Qed.


(** *** Strings and dicts *)

Lemma chars_append a b : chars (a +:+ b) = chars a ++ chars b.
Proof. unfold chars. induction a as [|c a IH]; [reflexivity|]. simpl. f_equal. exact IH. Qed.

Lemma starts_app a x y : starts (a ++ x) (a ++ y) = starts x y.
Proof.
  induction a as [|c a IH]; [reflexivity|].
  cbn. rewrite Ascii.eqb_refl. exact IH.
Qed.

Lemma startswith_append a x y : startswith (a +:+ x) (a +:+ y) = startswith x y.
Proof. unfold startswith. rewrite !chars_append. apply starts_app. Qed.

(** A layer's URL is never under the workspace's datastores. *)
Lemma layers_url_not_under_datastores u ws rest :
  startswith (u +:+ "/workspaces/" +:+ ws +:+ "/layers/" +:+ rest)
             (u +:+ "/workspaces/" +:+ ws +:+ "/datastores/") = false.
Proof. rewrite !startswith_append. reflexivity. Qed.

Lemma assoc_get_set k v m : assoc_get k (assoc_set k v m) = Some v.
Proof.
  induction m as [|[k' v'] m IH]; cbn.
  - rewrite String.eqb_refl. reflexivity.
  - destruct (String.eqb k' k) eqn:Hk; cbn.
    + rewrite String.eqb_refl. reflexivity.
    + rewrite Hk. exact IH.
Qed.

Lemma setitem_getitem d k v d' : setitem d k v = Ok d' -> getitem d' k = Ok v.
Proof.
  destruct d; cbn; try discriminate. intros H. injection H as <-.
  cbn. rewrite assoc_get_set. reflexivity.
Qed.

(** After [d[k1][k2] = v], [d[k1][k2]] is [v]. *)
Lemma set_nested_lookup d k1 k2 v d' rest :
  set_nested d k1 k2 v = Ok d' ->
  lookup_path d' (k1 :: k2 :: rest) = lookup_path v rest.
Proof.
  unfold set_nested. destruct (getitem d k1) as [inner|e]; [|discriminate].
  destruct (setitem inner k2 v) as [inner'|e] eqn:Hin; [|discriminate].
  intros Hset. cbn [lookup_path].
  rewrite (setitem_getitem _ _ _ _ Hset), (setitem_getitem _ _ _ _ Hin). reflexivity.
Qed.

(** *** The bounding box of the file-based path *)

(** What C9 says of a feature-type document. *)
Definition bounding_box_of (layer : Layer) (ft : json) : Prop :=
  lookup_path ft ["featureType"; "nativeBoundingBox"; "minx"]
    = Ok (JFloat (round (xMinimum (layer_extent layer)) 5))
  /\ lookup_path ft ["featureType"; "nativeBoundingBox"; "maxx"]
     = Ok (JFloat (round (xMaximum (layer_extent layer)) 5))
  /\ lookup_path ft ["featureType"; "nativeBoundingBox"; "miny"]
     = Ok (JFloat (round (yMinimum (layer_extent layer)) 5))
  /\ lookup_path ft ["featureType"; "nativeBoundingBox"; "maxy"]
     = Ok (JFloat (round (yMaximum (layer_extent layer)) 5))
  /\ lookup_path ft ["featureType"; "nativeBoundingBox"; "srs"]
     = Ok (JStr (crs_authid layer)).

(** A request that carries a dict to a URL under the workspace's
    datastores carries the layer's bounding box. *)
Definition datastore_dicts_carry_bbox (layer : Layer) (u : string) (rq : Request) : Prop :=
  forall ft,
    req_data rq = DataDict ft ->
    startswith (req_url rq) (u +:+ "/workspaces/" +:+ _workspace +:+ "/datastores/") = true ->
    bounding_box_of layer ft.

Ltac bbox_request :=
  intros ft Hdata Hurl; cbn [req_data req_url] in *;
  first
    [ discriminate Hdata
    | rewrite layers_url_not_under_datastores in Hurl; discriminate Hurl
    | injection Hdata as <-;
      match goal with
      | H : set_nested _ "featureType" "nativeBoundingBox" _ = Ok ?x |- bounding_box_of _ ?x =>
          unfold bounding_box_of;
          rewrite !(set_nested_lookup _ _ _ _ _ _ H);
          repeat split; reflexivity
      end ].

Lemma setLayerStyle_bbox layer u layername stylename :
  emits (datastore_dicts_carry_bbox layer u) u (_setLayerStyle layername stylename).
Proof.
  unfold emits, _setLayerStyle.
  frame_with ltac:(emits_base ltac:(bbox_request)).
Qed.

Lemma deleteDatastore_bbox layer u name :
  emits (datastore_dicts_carry_bbox layer u) u (_deleteDatastore name).
Proof.
  unfold emits, _deleteDatastore.
  frame_with ltac:(emits_base ltac:(bbox_request)).
Qed.

Lemma publishVectorLayerFromFile_bbox layer u filename :
  emits (datastore_dicts_carry_bbox layer u) u (_publishVectorLayerFromFile layer filename).
Proof.
  unfold emits, _publishVectorLayerFromFile, dict_get.
  frame_with ltac:(first [ apply setLayerStyle_bbox | apply deleteDatastore_bbox
                         | emits_base ltac:(bbox_request) ]).
Qed.

(** [y] is [x] rounded to [n] decimal places: for a finite [x], of exact
    value [m * 2^e], there is a decimal number [q / 10^n] of [n] places
    within half a unit of its last place of [x], and [y] is the double
    nearest to it; zeros, infinities and NaN stay as they are. *)
Definition rounded_to_places (n : N) (x y : spec_float) : Prop :=
  match x with
  | S754_finite s m e =>
      exists q : Z,
        y = of_decimal s q n
        /\ (Z.abs (2 * (Zpos m * 10 ^ Z.of_N n * 2 ^ Z.max e 0) - 2 * q * 2 ^ Z.max (- e) 0)
            <= 2 ^ Z.max (- e) 0)%Z
  | _ => y = x
  end.

Lemma div_half_even_nearest num den :
  (0 < den)%Z -> (Z.abs (2 * num - 2 * div_half_even num den * den) <= den)%Z.
Proof.
  intros Hden. unfold div_half_even.
  pose proof (Z.div_mod num den ltac:(lia)) as Hdm.
  pose proof (Z.mod_pos_bound num den Hden) as Hr.
  destruct (Z.compare_spec (2 * (num mod den)) den) as [Heq|Hlt|Hgt];
    [destruct (Z.even (num / den))| |]; nia.
Qed.

Lemma round_rounded (n : N) x : (n <= 323)%N -> rounded_to_places n x (round x n).
Proof.
  intros Hn. destruct x as [s|s| |s m e]; cbn [rounded_to_places round]; try reflexivity.
  destruct (N.ltb_spec 323 n) as [H|_]; [lia|].
  exists (decimal_digits m e n). split; [reflexivity|].
  unfold decimal_digits. destruct e as [|p|p].
  - change (Z.max 0 0) with 0%Z. change (Z.max (- 0) 0) with 0%Z.
    change (2 ^ 0)%Z with 1%Z. lia.
  - rewrite Z.max_l by lia. rewrite Z.max_r by lia. change (2 ^ 0)%Z with 1%Z. lia.
  - rewrite Z.max_r by lia. rewrite Z.max_l by lia.
    change (- Z.neg p)%Z with (Z.pos p). change (2 ^ 0)%Z with 1%Z.
    rewrite Z.mul_1_r.
    apply div_half_even_nearest. apply Z.pow_pos_nonneg; lia.
Qed.

(** C9.  Whatever dict [_publishVectorLayerFromFile] sends to a URL under
    the workspace's datastores (the feature-type update, by POST or PUT)
    has as [nativeBoundingBox] the layer's extent, each coordinate
    rounded to five decimal places, as [round(_, 5)] does it, and stored
    under its own key, and the layer's CRS authority code as [srs]. *)
Theorem feature_type_bounding_box st layer filename rq ft :
  In rq (sent (_publishVectorLayerFromFile layer filename) st) ->
  req_data rq = DataDict ft ->
  startswith (req_url rq)
             (self_url (self st) +:+ "/workspaces/" +:+ _workspace +:+ "/datastores/") = true ->
  exists minx maxx miny maxy,
    lookup_path ft ["featureType"; "nativeBoundingBox"; "minx"] = Ok (JFloat minx)
    /\ lookup_path ft ["featureType"; "nativeBoundingBox"; "maxx"] = Ok (JFloat maxx)
    /\ lookup_path ft ["featureType"; "nativeBoundingBox"; "miny"] = Ok (JFloat miny)
    /\ lookup_path ft ["featureType"; "nativeBoundingBox"; "maxy"] = Ok (JFloat maxy)
    /\ lookup_path ft ["featureType"; "nativeBoundingBox"; "srs"] = Ok (JStr (crs_authid layer))
    /\ minx = round (xMinimum (layer_extent layer)) 5
    /\ maxx = round (xMaximum (layer_extent layer)) 5
    /\ miny = round (yMinimum (layer_extent layer)) 5
    /\ maxy = round (yMaximum (layer_extent layer)) 5
    /\ rounded_to_places 5 (xMinimum (layer_extent layer)) minx
    /\ rounded_to_places 5 (xMaximum (layer_extent layer)) maxx
    /\ rounded_to_places 5 (yMinimum (layer_extent layer)) miny
    /\ rounded_to_places 5 (yMaximum (layer_extent layer)) maxy.
Proof.
  intros Hin Hdata Hurl.
  pose proof (emits_sent _ _ _ st (publishVectorLayerFromFile_bbox layer (self_url (self st)) filename)
                eq_refl) as Hall.
  rewrite List.Forall_forall in Hall.
  destruct (Hall rq Hin ft Hdata Hurl) as (H1 & H2 & H3 & H4 & H5).
  do 4 eexists.
  split; [exact H1|]. split; [exact H2|]. split; [exact H3|]. split; [exact H4|].
  split; [exact H5|]. do 4 (split; [reflexivity|]).
  repeat split; apply round_rounded; lia.
Qed.


(** *** Layer groups *)













(** *** Where the layer cache is cleared *)

Lemma clearCache_last {A} (m : M A) st st' :
  bind m (fun _ => _clearCache) st = (st', Ok tt) ->
  _layersCache (self st') = CacheNone.
Proof.
  intros H. apply bind_ok_inv in H as (a & st1 & _ & H).
  unfold _clearCache, modify_self in H. injection H as <-. reflexivity.
Qed.

(** Every path of [publishLayer] other than the zero-feature return ends
    with a cleared layer cache. *)
Lemma publishLayer_clears_cache st layer fields st' :
  publishLayer layer fields st = (st', Ok tt) ->
  (layer_type layer = VectorLayer -> featureCount layer <> 0%Z) ->
  _layersCache (self st') = CacheNone.
Proof.
  unfold publishLayer. intros Hrun Hcount. destruct (layer_type layer).
  - destruct (Z.eqb_spec (featureCount layer) 0) as [Hz|_];
      [exfalso; exact (Hcount eq_refl Hz)|].
    apply bind_ok_inv in Hrun as (o & st1 & _ & Hrun).
    exact (clearCache_last _ _ _ Hrun).
  - apply bind_ok_inv in Hrun as (? & ? & _ & Hrun).
    apply bind_ok_inv in Hrun as (? & ? & _ & Hrun).
    apply bind_ok_inv in Hrun as (? & ? & _ & Hrun).
    apply bind_ok_inv in Hrun as (? & ? & _ & Hrun).
    exact (clearCache_last _ _ _ Hrun).
  - unfold _clearCache, modify_self in Hrun. injection Hrun as <-. reflexivity.
Qed.

(** With a cleared cache [layerExists] asks the server: it sends one GET
    for the workspace's layer list, whatever the name. *)
Lemma layerExists_asks_when_cleared st name :
  _layersCache (self st) = CacheNone ->
  sent (layerExists name) st
  = [get_request (self_url (self st) +:+ "/workspaces/" +:+ _workspace +:+ "/layers.json")].
Proof.
  intros Hc. unfold sent, layerExists, _exists, the_url, request_get.
  unfold bind, try_except, get_self, ret, lift, modify_self, request_full, get_request.
  cbn [fst snd self world trace logged]. rewrite Hc.
  change (String.eqb "layer" "layer") with true. cbn [negb orb cache_is_None].
  repeat (match goal with
          | |- context [match ?x with _ => _ end] =>
              lazymatch x with
              | context [match _ with _ => _ end] => fail
              | _ => destruct x
              end
          end; cbn [fst snd self world trace logged]);
    rewrite drop_app_length; reflexivity.
Qed.

(** *** More on the existence checks *)

(** Case analysis on the innermost discriminee of the goal. *)
Ltac inner_case :=
  match goal with
  | |- context [match ?x with _ => _ end] =>
      lazymatch x with
      | context [match _ with _ => _ end] => fail
      | _ => destruct x eqn:?
      end
  end.

Ltac run_method :=
  unfold bind, try_except, get_self, get_world, ret, raise, lift, modify_self, call,
    attribute, log_line, request_full;
  cbn [fst snd self world trace logged].

(** With a filled cache [layerExists] is a pure lookup. *)
Lemma layerExists_answers_from_cache_aux st name :
  _layersCache (self st) <> CacheNone ->
  layerExists name st = (st, Ok (name_in name (cache_items (_layersCache (self st))))).
Proof.
  intros Hc.
  unfold layerExists, _exists, the_url. run_method.
  destruct (_layersCache (self st)); [contradiction | reflexivity | reflexivity].
Qed.

(** While the layer cache is not [None], [layerExists] does not contact
    the server: the state is untouched and the answer is read off the
    cached names.  With the [{}] a new object starts with, the answer is
    [False] for every name, and [deleteLayer] does nothing at all. *)
Theorem layerExists_answers_from_cache st name recurse :
  _layersCache (self st) <> CacheNone ->
  layerExists name st = (st, Ok (name_in name (cache_items (_layersCache (self st)))))
  /\ (_layersCache (self st) = CacheEmptyDict ->
      layerExists name st = (st, Ok false) /\ deleteLayer name recurse st = (st, Ok tt)).
Proof.
  intros Hc.
  pose proof (layerExists_answers_from_cache_aux st name Hc) as H.
  split; [exact H|]. intros He. rewrite He in H. cbn [cache_items name_in existsb] in H.
  split; [exact H|].
  unfold deleteLayer, bind. rewrite H. reflexivity.
Qed.

(** When [_exists] asks the server it sends its one GET and nothing
    else. *)
Lemma exists_sends_one_get url category name st :
  probes category st = true ->
  sent (_exists url category name) st = [get_request url].
Proof.
  unfold probes. intros Hp. unfold sent, _exists, request_get, get_request. run_method.
  rewrite Hp.
  repeat (inner_case; cbn [fst snd self world trace logged]);
    rewrite drop_app_length; reflexivity.
Qed.

(** Styles, workspaces and datastores are never cached: each check sends
    its GET, whatever was asked or answered before. *)
Theorem uncached_checks_always_ask st name :
  sent (styleExists name) st
  = [get_request (self_url (self st) +:+ "/workspaces/" +:+ _workspace +:+ "/styles.json")]
  /\ sent workspaceExists st
     = [get_request (self_url (self st) +:+ "/workspaces.json")]
  /\ sent (datastoreExists name) st
     = [get_request (self_url (self st) +:+ "/workspaces/" +:+ _workspace +:+ "/datastores.json")].
Proof.
  repeat split.
  - exact (exists_sends_one_get _ "style" name st eq_refl).
  - exact (exists_sends_one_get _ "workspace" _workspace st eq_refl).
  - exact (exists_sends_one_get _ "dataStore" name st eq_refl).
Qed.

(** A layer found on the server is remembered: after [layerExists]
    answered [True], the cache is filled and no later layer check sends a
    request. *)
Theorem layerExists_true_is_cached st name st1 :
  layerExists name st = (st1, Ok true) ->
  _layersCache (self st1) <> CacheNone
  /\ forall name', sent (layerExists name') st1 = [].
Proof.
  intros Hrun.
  assert (Hc : _layersCache (self st1) <> CacheNone).
  { revert Hrun. unfold layerExists, _exists, the_url, request_get. run_method.
    change (String.eqb "layer" "layer") with true. cbn [negb orb].
    destruct (_layersCache (self st)) eqn:Hcache; cbn [cache_is_None].
    - repeat (inner_case; cbn [fst snd self world trace logged]);
        intros H; inversion H; subst; cbn [self _layersCache with_layersCache]; discriminate.
    - intros H. inversion H.
    - intros H. inversion H. subst. rewrite Hcache. discriminate. }
  split; [exact Hc|]. intros name'.
  pose proof (layerExists_answers_from_cache_aux st1 name' Hc) as Heq.
  unfold sent. rewrite Heq. cbn [fst]. apply drop_all.
Qed.

(** When [_exists] asks the server, the history grows by its GET. *)
Lemma exists_trace url category name st :
  probes category st = true ->
  trace (fst (_exists url category name st)) = trace st ++ [get_request url].
Proof.
  unfold probes. intros Hp. unfold _exists, request_get, get_request. run_method.
  rewrite Hp.
  repeat (inner_case; cbn [fst snd self world trace logged]); reflexivity.
Qed.

(** A request that fails makes [_exists] answer [False]. *)
Lemma exists_failed_request url category name st w e :
  probes category st = true ->
  transport (get_request url) (world st) = (w, Raise e) ->
  snd (_exists url category name st) = Ok false.
Proof.
  unfold probes. intros Hp Ht. unfold _exists, request_get. run_method.
  rewrite Hp. fold (get_request url). rewrite Ht. reflexivity.
Qed.

(** *** Creating the workspace *)

Definition create_workspace_request (u : string) : Request :=
  {| req_url := u +:+ "/workspaces";
     req_data := DataDict (JObj [("workspace", JObj [("name", JStr _workspace)])]);
     req_method := "post"; req_headers := []; req_files := [] |}.

(** [_ensureWorkspaceExists] asks for the workspaces and then sends the
    creating POST exactly when the answer was not [True]; a check whose
    request failed counts as such an answer, so the POST is then sent as
    well. *)
Theorem ensureWorkspaceExists_requests st :
  sent _ensureWorkspaceExists st
  = get_request (self_url (self st) +:+ "/workspaces.json")
    :: (if answered_true (snd (workspaceExists st))
        then []
        else [create_workspace_request (self_url (self st))])
  /\ forall w e,
       transport (get_request (self_url (self st) +:+ "/workspaces.json")) (world st)
       = (w, Raise e) ->
       answered_true (snd (workspaceExists st)) = false.
Proof.
  split.
  - unfold sent, _ensureWorkspaceExists, bind.
    pose proof (workspaceExists_keeps_self st) as Hs.
    assert (Ht : trace (fst (workspaceExists st))
                 = trace st ++ [get_request (self_url (self st) +:+ "/workspaces.json")]).
    { unfold workspaceExists, the_url. run_method.
      apply (exists_trace _ "workspace" _workspace st eq_refl). }
    assert (Hnr : exists ex, snd (workspaceExists st) = Ok ex).
    { unfold workspaceExists. apply bind_never_raises;
        [apply the_url_never_raises | intros; apply exists_never_raises]. }
    destruct Hnr as [ex Hex].
    destruct (workspaceExists st) as [st1 r]. cbn [fst snd] in *. subst r.
    destruct ex; cbn [negb answered_true].
    + unfold ret. cbn [fst]. rewrite Ht, drop_app_length. reflexivity.
    + unfold the_url, request. run_method. rewrite Hs.
      destruct (transport _ (world st1)) as [w [r|e]]; cbn [fst trace];
        rewrite Ht, <- app_assoc, drop_app_length; reflexivity.
  - intros w e Ht. unfold workspaceExists, the_url. run_method.
    rewrite (exists_failed_request _ "workspace" _workspace st w e eq_refl Ht). reflexivity.
Qed.

(** *** Testing the connection *)

(** [testConnection] never raises: it sends one GET for the version and
    answers whether that request succeeded. *)
Theorem testConnection_answers st :
  exists b,
    snd (testConnection st) = Ok b
    /\ sent testConnection st = [get_request (self_url (self st) +:+ "/about/version")]
    /\ (b = true <->
        exists w r, transport (get_request (self_url (self st) +:+ "/about/version"))
                              (world st) = (w, Ok r)).
Proof.
  unfold sent, testConnection, the_url, request_get. run_method.
  fold (get_request (self_url (self st) +:+ "/about/version")).
  destruct (transport _ (world st)) as [w [r|e]]; cbn [fst snd trace].
  - exists true. rewrite drop_app_length. repeat split; eauto.
  - exists false. rewrite drop_app_length. repeat split; try discriminate.
    intros (w' & r' & H). discriminate H.
Qed.

(** *** The version check, in general *)

Lemma version_errors_shape result added :
  version_errors result = Ok added ->
  added = [] \/ exists ver, added = [version_too_old ver].
Proof.
  unfold version_errors.
  repeat (inner_case; try discriminate); intros H; injection H as <-; eauto.
Qed.

Lemma checkMinGeoserverVersion_shape st (errors : gset string) :
  exists st' errors',
    checkMinGeoserverVersion errors st = (st', Ok errors')
    /\ errors ⊆ errors'
    /\ (errors' = errors
        \/ errors' = {[ could_not_connect ]} ∪ errors
        \/ exists ver, errors' = {[ version_too_old ver ]} ∪ errors).
Proof.
  unfold checkMinGeoserverVersion, the_url, request_get. run_method.
  destruct (transport _ (world st)) as [w [r|e]]; cbn [fst snd];
    [|do 2 eexists; split; [reflexivity|]; split; [set_solver | right; left; reflexivity]].
  unfold json_of. destruct (resp_json r) as [j|];
    [|do 2 eexists; split; [reflexivity|]; split; [set_solver | right; left; reflexivity]].
  destruct (getitem j "about") as [about|];
    [|do 2 eexists; split; [reflexivity|]; split; [set_solver | right; left; reflexivity]].
  destruct (getitem about "resource") as [result|];
    [|do 2 eexists; split; [reflexivity|]; split; [set_solver | right; left; reflexivity]].
  destruct (version_errors result) as [added|e] eqn:Hv;
    [|do 2 eexists; split; [reflexivity|]; split; [set_solver | left; reflexivity]].
  do 2 eexists. split; [reflexivity|]. split; [set_solver|].
  destruct (version_errors_shape _ _ Hv) as [->|[ver ->]].
  - left. cbn [list_to_set foldr]. apply (left_id_L ∅ (∪)).
  - right. right. exists ver. cbn [list_to_set foldr].
    rewrite (right_id_L ∅ (∪)). reflexivity.
Qed.

(** [checkMinGeoserverVersion] never raises and never drops an error: it
    returns the errors it was given, with at most one message added, the
    one about the connection or the one about the version. *)
Theorem checkMinGeoserverVersion_only_adds st (errors : gset string) :
  exists st' errors',
    checkMinGeoserverVersion errors st = (st', Ok errors')
    /\ errors ⊆ errors'
    /\ (errors' = errors
        \/ errors' = {[ could_not_connect ]} ∪ errors
        \/ exists ver, errors' = {[ version_too_old ver ]} ∪ errors).
Proof. apply checkMinGeoserverVersion_shape. Qed.

(** A version that does not split into three parts at its dots, such as
    a snapshot or a release candidate of a development line, is
    accepted: the errors stay as they were. *)
Theorem checkMinGeoserverVersion_tolerates_odd_versions st (errors : gset string) w r ver others :
  transport (get_request (self_url (self st) +:+ "/about/version.json")) (world st)
  = (w, Ok r) ->
  resp_json r
  = Some (JObj [("about",
                 JObj [("resource",
                        JArr (JObj [("@name", JStr "GeoServer"); ("Version", JStr ver)]
                              :: others))])]) ->
  length (split ver dot) <> 3 ->
  snd (checkMinGeoserverVersion errors st) = Ok errors.
Proof.
  intros Ht Hj Hlen. unfold checkMinGeoserverVersion, the_url, request_get. run_method.
  fold (get_request (self_url (self st) +:+ "/about/version.json")). rewrite Ht.
  cbn [fst snd]. unfold json_of. rewrite Hj. cbn.
  destruct (split ver dot) as [|a [|b [|c [|d l]]]]; cbn in *; try reflexivity.
  contradiction.
Qed.

(** [frame_with], choosing the rule by the shape of the method. *)
Ltac frame_by base :=
  repeat first
    [ frame_goal
    | base
    | lazymatch goal with
      | |- respects _ _ (ret _) => apply respects_ret
      | |- respects _ _ (raise _) => apply respects_raise
      | |- respects _ _ (lift _) => apply respects_lift
      | |- respects _ _ get_self => apply respects_get_self
      | |- respects _ _ get_world => apply respects_get_world
      | |- respects _ _ the_url => apply respects_the_url
      | |- respects _ _ (attribute _) => apply respects_attribute
      | |- respects _ _ (call _) => apply respects_call
      | |- respects _ _ (log_line _ _) => apply respects_log
      | |- respects _ _ (logInfo _) => apply respects_log
      | |- respects _ _ (logWarning _) => apply respects_log
      | |- respects _ _ (logError _) => apply respects_log
      | |- respects _ _ (try_except _ _) => apply respects_try; [frame_goal | |]
      | |- respects _ _ (for_each _ _) => apply respects_for_each; [frame_goal | intros ?]
      | |- respects _ _ (bind (lift _) _) => apply respects_bind_lift; [frame_goal | intros ? ?]
      | |- respects _ _ (bind _ _) => apply respects_bind; [frame_goal | | intros ?]
      | |- respects _ _ (if ?b then _ else _) => destruct b
      | |- respects _ _ (match ?x with _ => _ end) => destruct x
      end ].

(** *** Nested groups *)

Lemma collect_publishables_nested members g :
  In (SubGroup g) members ->
  forall layers st, exists e, collect_publishables members layers st = (st, Raise e).
Proof.
  induction members as [|m members IH]; intros Hin layers st; [destruct Hin|].
  destruct m as [n|g0]; cbn [collect_publishables].
  - apply IH. destruct Hin as [Heq|Hin]; [discriminate Heq | exact Hin].
  - unfold bind, group_get, _publishGroup_without_qgis_layers, raise, ret.
    destruct (group_name g0); eauto.
Qed.

(** A group with a nested group among its members cannot be published:
    [_publishGroup] raises at the nested member, after the requests for
    the group's style and before any request for the layer group itself. *)
Theorem publishGroup_nested_raises st group qgis_layers members g :
  group_layers group = Some members ->
  In (SubGroup g) members ->
  (exists e, snd (_publishGroup group qgis_layers st) = Raise e)
  /\ sent (_publishGroup group qgis_layers) st = sent (_publishGroupMapBox group qgis_layers) st.
Proof.
  intros Hm Hin.
  assert (Hkey : exists e, _publishGroup group qgis_layers st
                           = (fst (_publishGroupMapBox group qgis_layers st), Raise e)).
  { unfold _publishGroup. unfold bind at 1.
    destruct (_publishGroupMapBox group qgis_layers st) as [sa [[]|e]]; cbn [fst snd]; [|eauto].
    rewrite Hm. cbn [group_get]. unfold bind at 1. cbn [ret]. unfold bind at 1.
    destruct (collect_publishables_nested members g Hin [] sa) as [e ->]. eauto. }
  destruct Hkey as [e Hkey]. unfold sent. rewrite Hkey. cbn [fst snd]. eauto.
Qed.

(** *** What a session's preparation deletes *)

Definition only_workspace_delete (b : bool) (u : string) (rq : Request) : Prop :=
  req_method rq = "delete" ->
  b = false /\ req_url rq = u +:+ "/workspaces/" +:+ _workspace +:+ "?recurse=true".

Ltac delete_request :=
  intros Hmethod; cbn [req_method req_url] in *;
  first [ discriminate Hmethod | split; reflexivity ].

Lemma prepareForPublishing_emits b u :
  emits (only_workspace_delete b u) u (prepareForPublishing b).
Proof.
  unfold emits, prepareForPublishing, deleteWorkspace, _ensureWorkspaceExists, workspaceExists.
  destruct b; cbn [negb];
    frame_with ltac:(first [ apply exists_emits; delete_request
                           | emits_base ltac:(delete_request) ]).
Qed.

(** The only thing [prepareForPublishing] ever deletes is the workspace,
    and only when [onlySymbology] is false: preparing a symbology-only
    publication sends no DELETE. *)
Theorem prepareForPublishing_deletes_only_workspace st onlySymbology rq :
  In rq (sent (prepareForPublishing onlySymbology) st) ->
  req_method rq = "delete" ->
  onlySymbology = false
  /\ req_url rq = self_url (self st) +:+ "/workspaces/" +:+ _workspace +:+ "?recurse=true".
Proof.
  intros Hin Hm.
  pose proof (emits_sent _ _ _ st (prepareForPublishing_emits onlySymbology (self_url (self st)))
                eq_refl) as Hall.
  rewrite List.Forall_forall in Hall. exact (Hall rq Hin Hm).
Qed.

(** *** Recording a published layer *)

Lemma publishStyle_keeps_self_inner name styleFilename : keeps_self (_publishStyle name styleFilename).
Proof.
  unfold keeps_self, _publishStyle, _ensureWorkspaceExists, workspaceExists, styleExists.
  frame_by ltac:(first [ apply exists_keeps_self; reflexivity | keeps_self_base ]).
Qed.

Lemma set_add_keeps layer s l : In l s -> In l (set_add layer s).
Proof.
  unfold set_add. destruct (existsb _ s); [auto|]. intros H. apply in_or_app. auto.
Qed.

Lemma set_add_holds layer s : exists l, In l (set_add layer s) /\ layer_id l = layer_id layer.
Proof.
  unfold set_add. destruct (existsb _ s) eqn:Hex.
  - apply existsb_exists in Hex as (l & Hin & Heq). apply String.eqb_eq in Heq. eauto.
  - exists layer. split; [apply in_or_app; right; left; reflexivity | reflexivity].
Qed.

(** [publishStyle] records the layer as published before it exports or
    uploads anything: whether it returns or raises, the layer is in the
    set afterwards and every layer recorded before is still there. *)
Theorem publishStyle_records_layer st layer published :
  _publishedLayers (self st) = Some published ->
  exists recorded,
    _publishedLayers (self (fst (publishStyle layer st))) = Some recorded
    /\ (exists l, In l recorded /\ layer_id l = layer_id layer)
    /\ (forall l, In l published -> In l recorded).
Proof.
  intros Hp. exists (set_add layer published).
  split; [|split; [apply set_add_holds | intros l; apply set_add_keeps]].
  unfold publishStyle. unfold bind at 1. unfold attribute. rewrite Hp.
  unfold bind at 1. unfold modify_self at 1.
  match goal with
  | |- context [fst (?k ?s)] =>
      assert (Hk : keeps_self k); [|pose proof (proj2 (Hk s Logic.I)) as Hs]
  end.
  { unfold keeps_self.
    frame_by ltac:(first [ apply publishStyle_keeps_self_inner | keeps_self_base ]). }
  unfold same_self in Hs. rewrite Hs. reflexivity.
Qed.

(** *** Framing with the object pinned

    For methods that do not write to the object: [o] is the object before
    and after, so what the method reads from it is known. *)

Definition self_is (o : Self) (st : St) : Prop := self st = o.

#[local] Instance pinned_frame P o : Frame (self_is o) (emitting P).
Proof.
  split; unfold emitting, self_is.
  - intros st. exists []. split; [symmetry; apply app_nil_r | constructor].
  - intros a b c (l1 & H1 & F1) (l2 & H2 & F2). exists (l1 ++ l2). split.
    + rewrite H2, H1. symmetry. apply app_assoc.
    + apply Forall_app. split; assumption.
  - intros st w H. split; [exact H|]. exists []. split; [symmetry; apply app_nil_r | constructor].
  - intros st l H. split; [exact H|]. exists []. split; [symmetry; apply app_nil_r | constructor].
Qed.

Definition pinned (P : Request -> Prop) (o : Self) {A} (m : M A) : Prop :=
  respects (self_is o) (emitting P) m.

Lemma pinned_request_full (P : Request -> Prop) o u d m h f :
  P {| req_url := u; req_data := d; req_method := m; req_headers := h; req_files := f |} ->
  pinned P o (request_full u d m h f).
Proof.
  intros HP st HI. unfold request_full. destruct (transport _ _) as [w r]. cbn [fst].
  split; [exact HI|]. eexists. split; [reflexivity|]. constructor; [exact HP | constructor].
Qed.

Lemma pinned_bind_the_url (P : Request -> Prop) o {B} (k : string -> M B) :
  pinned P o (k (self_url o)) -> pinned P o (bind the_url k).
Proof.
  intros Hk st HI. unfold bind, the_url, get_self, ret. cbn.
  unfold self_is in HI. rewrite HI. apply Hk. exact HI.
Qed.

Lemma pinned_bind_get_self (P : Request -> Prop) o {B} (k : Self -> M B) :
  pinned P o (k o) -> pinned P o (bind get_self k).
Proof.
  intros Hk st HI. unfold bind, get_self. cbn.
  unfold self_is in HI. rewrite HI. apply Hk. exact HI.
Qed.

Lemma pinned_bind_attribute (P : Request -> Prop) o {A B} (f : Self -> option A) a
    (k : A -> M B) :
  f o = Some a -> pinned P o (k a) -> pinned P o (bind (attribute f) k).
Proof.
  intros Hf Hk st HI. unfold bind, attribute.
  unfold self_is in HI. rewrite HI, Hf. apply Hk. exact HI.
Qed.

Lemma pinned_bind_ret (P : Request -> Prop) o {A B} (a : A) (k : A -> M B) :
  pinned P o (k a) -> pinned P o (bind (ret a) k).
Proof. intros Hk st HI. apply Hk. exact HI. Qed.

Lemma pinned_sent (P : Request -> Prop) o {A} (m : M A) st :
  pinned P o m -> self st = o ->
  self (fst (m st)) = o /\ Forall P (sent m st).
Proof.
  intros Hm HI. destruct (Hm st HI) as [Hs (l & Hl & HF)].
  split; [exact Hs|]. unfold sent. rewrite Hl, drop_app_length. exact HF.
Qed.

Ltac pinned_base solve_request :=
  first [ progress (unfold pinned)
        | apply pinned_bind_the_url
        | apply pinned_bind_get_self
        | apply pinned_bind_ret
        | apply pinned_request_full; solve_request
        | unfold request_get; apply pinned_request_full; solve_request
        | unfold request; apply pinned_request_full; solve_request
        | unfold request_h; apply pinned_request_full; solve_request ].

(** *** A file uploaded once *)

(** What the file-based path may send for a file it has uploaded before:
    no upload, no DELETE, and POSTs only to the feature types of the
    dataset [ds]. *)
Definition reuses_dataset (ds u : string) (rq : Request) : Prop :=
  is_upload rq = false
  /\ req_method rq <> "delete"
  /\ (req_method rq = "post" ->
      req_url rq = u +:+ "/workspaces/" +:+ _workspace +:+ "/datastores/" +:+ ds
                     +:+ "/featuretypes").

Ltac reuse_request :=
  unfold reuses_dataset; cbn [req_method req_url req_data is_upload];
  split; [reflexivity|]; split; [discriminate|];
  intros Hpost; first [ discriminate Hpost | reflexivity ].

Lemma setLayerStyle_reuses ds o layername stylename :
  pinned (reuses_dataset ds (self_url o)) o (_setLayerStyle layername stylename).
Proof.
  unfold pinned, _setLayerStyle.
  frame_by ltac:(pinned_base ltac:(reuse_request)).
Qed.

(** When the exported file was uploaded earlier in the session,
    [_publishVectorLayerFromFile] leaves the object as it is and neither
    uploads the file again nor deletes the datastore: it only creates a
    further feature type, by POST, in the dataset recorded for the file. *)
Theorem publishVectorLayerFromFile_reuses_upload st layer filename uploaded ds tbl :
  _uploadedDatasets (self st) = Some uploaded ->
  uploaded !! filename = Some (ds, tbl) ->
  self (fst (_publishVectorLayerFromFile layer filename st)) = self st
  /\ Forall (fun rq =>
               is_upload rq = false
               /\ req_method rq <> "delete"
               /\ (req_method rq = "post" ->
                   req_url rq = self_url (self st) +:+ "/workspaces/" +:+ _workspace
                                  +:+ "/datastores/" +:+ ds +:+ "/featuretypes"))
            (sent (_publishVectorLayerFromFile layer filename) st).
Proof.
  intros Hup Hlook.
  apply (pinned_sent (reuses_dataset ds (self_url (self st))) (self st)); [|reflexivity].
  unfold pinned, _publishVectorLayerFromFile, dict_get.
  frame_by ltac:(first [ apply setLayerStyle_reuses
                       | eapply pinned_bind_attribute; [exact Hup|]
                       | progress (rewrite Hlook); cbn [negb]
                       | pinned_base ltac:(reuse_request) ]).
Qed.

(** *** The stored URL, in general *)

Lemma chars_str l : chars (str l) = l.
Proof. apply list_ascii_of_string_of_list_ascii. Qed.

Lemma str_chars s : str (chars s) = s.
Proof. apply string_of_list_ascii_of_string. Qed.

Lemma str_app a b : str (a ++ b) = str a +:+ str b.
Proof. unfold str. induction a as [|c a IH]; [reflexivity|]. simpl. rewrite IH. reflexivity. Qed.

Definition tser : list ascii := rev (chars "rest").

(** Dropping a slash at the end of the reversed text cannot create or
    destroy the ending [rest]. *)
Lemma starts_tser_without_last_slash l :
  starts (l ++ [slash]) tser = true -> starts l tser = true.
Proof.
  change tser with ["t"; "s"; "e"; "r"]%char.
  destruct l as [|a [|b [|c [|d l]]]]; cbn [starts app];
    repeat match goal with
           | |- context [Ascii.eqb ?x ?y] =>
               first [ is_var y; destruct (Ascii.eqb x y)
                     | let v := eval vm_compute in (Ascii.eqb x y) in
                       change (Ascii.eqb x y) with v ]
           end; cbn [andb]; try discriminate; auto.
  destruct l; reflexivity.
Qed.

Lemma lstrip1_keeps_rest s :
  starts (rev s) tser = true -> starts (rev (lstrip1 slash s)) tser = true.
Proof.
  induction s as [|d s IH]; cbn [lstrip1]; [auto|].
  destruct (Ascii.eqb d slash) eqn:Hd; [|auto].
  apply Ascii.eqb_eq in Hd. subst d. cbn [rev]. intros H.
  apply IH. apply starts_tser_without_last_slash. exact H.
Qed.

Lemma lstrip1_of_tser l : starts l tser = true -> lstrip1 slash l = l.
Proof.
  change tser with ["t"; "s"; "e"; "r"]%char.
  destruct l as [|a l]; [reflexivity|]. cbn [lstrip1 starts].
  destruct (Ascii.eqb a slash) eqn:Ha; [|reflexivity].
  apply Ascii.eqb_eq in Ha. subst a.
  change (Ascii.eqb "t" slash) with false. discriminate.
Qed.

Lemma lstrip1_head c l : starts (lstrip1 c l) [c] = false.
Proof.
  induction l as [|d l IH]; [reflexivity|]. cbn [lstrip1].
  destruct (Ascii.eqb d c) eqn:Hd; [exact IH|].
  cbn [starts]. rewrite Ascii.eqb_sym, Hd. reflexivity.
Qed.

Lemma init_url_shape name url authid storage postgisdb useOriginalDataSource useVectorTiles :
  truthy url = true ->
  endswith (self_url (__init__ name url authid storage postgisdb
                               useOriginalDataSource useVectorTiles)) "rest" = true
  /\ endswith (self_url (__init__ name url authid storage postgisdb
                                  useOriginalDataSource useVectorTiles)) "/" = false.
Proof.
  intros Hurl. cbn [__init__ self_url]. rewrite Hurl.
  destruct (endswith url "rest") eqn:Hrest; unfold endswith, strip in *.
  - rewrite chars_str, rev_involutive. fold tser in *.
    pose proof (lstrip1_keeps_rest _ Hrest) as H.
    rewrite (lstrip1_of_tser _ H). split; [exact H|].
    rewrite <- (lstrip1_of_tser _ H). apply lstrip1_head.
  - rewrite chars_append, rev_app_distr. split; reflexivity.
Qed.

(** The true part of the URL's normalisation: for every non-empty [url]
    the constructor stores a URL that ends in [rest] and not in a
    slash. *)
Theorem init_url_ends_in_rest name url authid storage postgisdb useOriginalDataSource useVectorTiles :
  truthy url = true ->
  let u := self_url (__init__ name url authid storage postgisdb
                              useOriginalDataSource useVectorTiles) in
  endswith u "rest" = true /\ endswith u "/" = false.
Proof. intros Hurl u. subst u. apply init_url_shape. exact Hurl. Qed.

(** *** The base URL *)

Lemma split_go_app sep cur a b :
  split_go sep cur (a ++ sep :: b) = split_go sep cur a ++ split_go sep [] b.
Proof.
  revert cur. induction a as [|d a IH]; intros cur; cbn.
  - rewrite Ascii.eqb_refl. reflexivity.
  - destruct (Ascii.eqb d sep); cbn; rewrite IH; reflexivity.
Qed.

Lemma split_go_nonempty sep cur s : split_go sep cur s <> [].
Proof.
  revert cur. induction s as [|d s IH]; intros cur; cbn; [discriminate|].
  destruct (Ascii.eqb d sep); [discriminate | apply IH].
Qed.

Lemma join_cons sep x l : l <> [] -> join sep (x :: l) = x +:+ sep +:+ join sep l.
Proof. destruct l; [contradiction | reflexivity]. Qed.

Lemma join_split_go cur s :
  join "/" (split_go slash cur s) = str (rev cur ++ s).
Proof.
  revert cur. induction s as [|d s IH]; intros cur; cbn [split_go].
  - cbn [join]. rewrite app_nil_r. reflexivity.
  - destruct (Ascii.eqb d slash) eqn:Hd.
    + apply Ascii.eqb_eq in Hd. subst d.
      rewrite join_cons by apply split_go_nonempty.
      rewrite IH. cbn [rev app]. rewrite str_app. reflexivity.
    + rewrite IH. cbn [rev]. rewrite <- app_assoc. reflexivity.
Qed.

(** Splitting at the slashes and joining again gives the text back. *)
Lemma join_split s : join "/" (split s slash) = s.
Proof. unfold split. rewrite join_split_go. apply str_chars. Qed.

(** [baseUrl] undoes the suffix the constructor appends: for a stored URL
    [root/rest] it answers [root], and the WFS endpoint is [root/wfs]. *)
Theorem baseUrl_drops_rest st root :
  self_url (self st) = root +:+ "/rest" ->
  baseUrl st = (st, Ok root) /\ layerWfsUrl st = (st, Ok (root +:+ "/wfs")).
Proof.
  intros Hu.
  assert (H : baseUrl st = (st, Ok root)).
  { unfold baseUrl, the_url. run_method. rewrite Hu. unfold split.
    rewrite chars_append. change (chars "/rest") with (slash :: chars "rest").
    rewrite split_go_app. change (split_go slash [] (chars "rest")) with ["rest"].
    rewrite removelast_last. fold (split root slash). rewrite join_split. reflexivity. }
  split; [exact H|]. unfold layerWfsUrl, bind. rewrite H. reflexivity.
Qed.

(** *** Servers made by the connection form *)

(** The form yields a server exactly when credentials are chosen and the
    name and the URL are not blank; the server then has a URL that ends in
    [rest] and not in a slash, and a database only for the two PostGIS
    storages. *)
Theorem createGeoserverServer_spec form :
  (createGeoserverServer form = None <->
   geoserverAuth form = EmptyString
   \/ strip_space (txtGeoserverName form) = EmptyString
   \/ strip_space (txtGeoserverUrl form) = EmptyString)
  /\ (forall server,
        createGeoserverServer form = Some server ->
        endswith (self_url server) "rest" = true
        /\ endswith (self_url server) "/" = false
        /\ self_name server = strip_space (txtGeoserverName form)
        /\ (postgisdb server = None <->
            comboGeoserverDataStorage form <> POSTGIS_MANAGED_BY_BRIDGE
            /\ comboGeoserverDataStorage form <> POSTGIS_MANAGED_BY_GEOSERVER)).
Proof.
  unfold createGeoserverServer.
  destruct (geoserverAuth form) as [|c auth] eqn:Hauth; cbn [truthy negb].
  { split; [split; auto|]. intros server H. discriminate H. }
  cbn [existsb].
  destruct (strip_space (txtGeoserverName form)) as [|c1 n] eqn:Hname; cbn [String.eqb orb].
  { split; [split; auto|]. intros server H. discriminate H. }
  destruct (strip_space (txtGeoserverUrl form)) as [|c2 u] eqn:Hurl; cbn [String.eqb orb].
  { split; [split; auto|]. intros server H. discriminate H. }
  split.
  - split; [discriminate|]. intros [H|[H|H]]; discriminate H.
  - intros server H. injection H as <-.
    destruct (init_url_shape (String c1 n) (String c2 u) (String c auth)
                (comboGeoserverDataStorage form)
                (if (comboGeoserverDataStorage form =? POSTGIS_MANAGED_BY_BRIDGE)%Z
                    || (comboGeoserverDataStorage form =? POSTGIS_MANAGED_BY_GEOSERVER)%Z
                 then Some (comboGeoserverDatabase form) else None)
                (chkUseOriginalDataSource form) (chkUseVectorTiles form) eq_refl) as [H1 H2].
    split; [exact H1|]. split; [exact H2|]. split; [reflexivity|].
    cbn [postgisdb __init__].
    destruct (Z.eqb_spec (comboGeoserverDataStorage form) POSTGIS_MANAGED_BY_BRIDGE) as [->|Hb];
      cbn [orb].
    + split; [discriminate | intros [Hc _]; contradiction].
    + destruct (Z.eqb_spec (comboGeoserverDataStorage form) POSTGIS_MANAGED_BY_GEOSERVER)
        as [->|Hg].
      * split; [discriminate | intros [_ Hc]; contradiction].
      * split; auto.
Qed.

(** *** Validation before publication *)

Context {D : Dialogs}.

(** The requests the validation sends when started in [st]. *)
Definition validation_sent (errors : gset string) (toPublish : list string) (st : St)
    : list Request :=
  drop (length (trace st))
       (trace (fst (fst (validateGeodataBeforePublication errors toPublish st)))).

(** A request that only reads: a GET without a body. *)
Definition reads (rq : Request) : Prop := exists url, rq = get_request url.

Lemma workspaceExists_trace st :
  trace (fst (workspaceExists st))
  = trace st ++ [get_request (self_url (self st) +:+ "/workspaces.json")].
Proof.
  unfold workspaceExists, the_url. run_method.
  apply (exists_trace _ "workspace" _workspace st eq_refl).
Qed.

Lemma layers_reads u : emits reads u layers.
Proof.
  unfold emits, layers.
  frame_by ltac:(first [emits_base ltac:(eexists; reflexivity) | progress (unfold emits)]).
Qed.

Lemma checkMinGeoserverVersion_reads u errors : emits reads u (checkMinGeoserverVersion errors).
Proof.
  unfold emits, checkMinGeoserverVersion.
  frame_by ltac:(first [emits_base ltac:(eexists; reflexivity) | progress (unfold emits)]).
Qed.

Lemma checkMinGeoserverVersion_adds st (errors : gset string) :
  exists st' errors',
    checkMinGeoserverVersion errors st = (st', Ok errors') /\ errors ⊆ errors'.
Proof.
  unfold checkMinGeoserverVersion, the_url, request_get. run_method.
  destruct (transport _ (world st)) as [w [r|e]]; cbn [fst snd];
    [|do 2 eexists; split; [reflexivity | set_solver]].
  unfold json_of. destruct (resp_json r) as [j|];
    [|do 2 eexists; split; [reflexivity | set_solver]].
  destruct (getitem j "about") as [about|];
    [|do 2 eexists; split; [reflexivity | set_solver]].
  destruct (getitem about "resource") as [result|];
    [|do 2 eexists; split; [reflexivity | set_solver]].
  destruct (version_errors result) as [added|e];
    do 2 eexists; (split; [reflexivity | set_solver]).
Qed.

(** What the two local checks add. *)
Definition project_errors (errors : gset string) : gset string :=
  let errors := if negb (truthy absoluteFilePath) then {[ not_saved ]} ∪ errors else errors in
  if contains "." _workspace then {[ unsupported_characters ]} ∪ errors else errors.

Lemma project_errors_spec errors :
  errors ⊆ project_errors errors
  /\ (truthy absoluteFilePath = false -> not_saved ∈ project_errors errors)
  /\ (contains "." _workspace = true -> unsupported_characters ∈ project_errors errors).
Proof.
  unfold project_errors.
  destruct (truthy absoluteFilePath); destruct (contains "." _workspace); cbn [negb];
    repeat split; try discriminate; set_solver.
Qed.

(** The validation only adds to the errors it is given, whether it
    returns or raises, and a problem of the project is reported whatever
    the server answers.  It is read-only, every request being a GET
    without a body, and it does not stop at a problem of the project: the
    server is asked for the workspaces in every run. *)
Theorem validateGeodataBeforePublication_only_adds st (errors : gset string) toPublish :
  let found := snd (fst (validateGeodataBeforePublication errors toPublish st)) in
  errors ⊆ found
  /\ (truthy absoluteFilePath = false -> not_saved ∈ found)
  /\ (contains "." _workspace = true -> unsupported_characters ∈ found)
  /\ exists rest,
       validation_sent errors toPublish st
       = get_request (self_url (self st) +:+ "/workspaces.json") :: rest
       /\ Forall reads rest.
Proof.
  cbv zeta. unfold validation_sent, validateGeodataBeforePublication.
  fold (project_errors errors).
  destruct (project_errors_spec errors) as (Hsub & Hsaved & Hdot).
  set (found0 := project_errors errors) in *.
  set (u := self_url (self st)).
  (* the requests of [willDeleteLayersOnPublication] *)
  assert (Hw : url_is u (fst (willDeleteLayersOnPublication toPublish st))
               /\ exists rest,
                    trace (fst (willDeleteLayersOnPublication toPublish st))
                    = trace st ++ get_request (u +:+ "/workspaces.json") :: rest
                    /\ Forall reads rest).
  { unfold willDeleteLayersOnPublication, bind.
    pose proof (workspaceExists_trace st) as Ht.
    pose proof (workspaceExists_keeps_self st) as Hs.
    destruct (workspaceExists st) as [st0 [ex|e]]; cbn [fst] in *;
      [|split; [exact (f_equal self_url Hs) | exists []; split; [exact Ht | constructor]]].
    destruct ex;
      [|split; [exact (f_equal self_url Hs) | exists []; split; [exact Ht | constructor]]].
    destruct (layers_reads u st0 (f_equal self_url Hs)) as [Hu (l & Hl & HF)].
    destruct (layers st0) as [st1 [ls|e]]; cbn [fst] in *.
    - assert (Hst : forall r : Result bool,
                 fst ((if forallb hashable ls
                       then ret (existsb (fun l0 => negb (existsb (eq_str l0) toPublish)) ls)
                       else raise TypeError) st1) = st1).
      { intros _. destruct (forallb hashable ls); reflexivity. }
      rewrite (Hst (Ok true)). split; [exact Hu|]. exists l. split; [|exact HF].
      rewrite Hl, Ht, <- app_assoc. reflexivity.
    - split; [exact Hu|]. exists l. split; [|exact HF].
      rewrite Hl, Ht, <- app_assoc. reflexivity. }
  destruct Hw as [Hu1 (l1 & Hl1 & HF1)].
  destruct (willDeleteLayersOnPublication toPublish st) as [st1 [will|e]]; cbn [fst snd] in *.
  2:{ repeat split; try assumption. exists l1. rewrite Hl1, drop_app_length. auto. }
  (* the dialog *)
  assert (Hq : forall st2 (found1 : gset string) (asked : Result unit),
             url_is u st2 -> trace st2 = trace st1 -> found0 ⊆ found1 ->
             let r :=
               match asked with
               | Raise e => (st2, found1, Raise e)
               | Ok _ =>
                   match checkMinGeoserverVersion found1 st2 with
                   | (st3, Ok errors0) => (st3, errors0, Ok tt)
                   | (st3, Raise e) => (st3, found1, Raise e)
                   end
               end in
             found0 ⊆ snd (fst r)
             /\ exists rest,
                  drop (length (trace st)) (trace (fst (fst r)))
                  = get_request (u +:+ "/workspaces.json") :: rest
                  /\ Forall reads rest).
  { intros st2 found1 asked Hu2 Ht2 Hf r. subst r. destruct asked as [[]|e]; cbn [fst snd].
    2:{ split; [exact Hf|]. exists l1. rewrite Ht2, Hl1, drop_app_length. auto. }
    destruct (checkMinGeoserverVersion_adds st2 found1) as (st3 & found3 & Hc & Hsub3).
    destruct (checkMinGeoserverVersion_reads u found1 st2 Hu2) as [_ (l3 & Hl3 & HF3)].
    rewrite Hc in *. cbn [fst snd] in *. split; [etransitivity; [exact Hf | exact Hsub3]|].
    exists (l1 ++ l3). split.
    - rewrite Hl3, Ht2, Hl1, <- app_assoc, drop_app_length. reflexivity.
    - apply Forall_app. split; assumption. }
  assert (Hall : forall r : St * gset string * Result unit,
             (found0 ⊆ snd (fst r)
              /\ exists rest,
                   drop (length (trace st)) (trace (fst (fst r)))
                   = get_request (u +:+ "/workspaces.json") :: rest
                   /\ Forall reads rest) ->
             errors ⊆ snd (fst r)
             /\ (truthy absoluteFilePath = false -> not_saved ∈ snd (fst r))
             /\ (contains "." _workspace = true -> unsupported_characters ∈ snd (fst r))
             /\ exists rest,
                  drop (length (trace st)) (trace (fst (fst r)))
                  = get_request (u +:+ "/workspaces.json") :: rest
                  /\ Forall reads rest).
  { intros r [Hr Hrest]. repeat split; [etransitivity; [exact Hsub | exact Hr] | | | exact Hrest].
    - intros H. exact (elem_of_weaken _ _ _ (Hsaved H) Hr).
    - intros H. exact (elem_of_weaken _ _ _ (Hdot H) Hr). }
  destruct will.
  - unfold call. destruct (question "Workspace" overwrite_question (world st1)) as [w [[]|e]].
    + apply Hall. apply (Hq _ _ (Ok tt)); [exact Hu1 | reflexivity | first [reflexivity | apply union_subseteq_r]].
    + apply Hall. apply (Hq _ _ (Ok tt)); [exact Hu1 | reflexivity | first [reflexivity | apply union_subseteq_r]].
    + apply Hall. apply (Hq _ _ (Raise e)); [exact Hu1 | reflexivity | first [reflexivity | apply union_subseteq_r]].
  - apply Hall. apply (Hq _ _ (Ok tt)); [exact Hu1 | reflexivity | first [reflexivity | apply union_subseteq_r]].
Qed.


Lemma cannot_overwrite_is_added_by_the_dialog_only (errors errors' : gset string) :
  errors' = errors
  \/ errors' = {[ not_saved ]} ∪ errors
  \/ errors' = {[ unsupported_characters ]} ∪ errors
  \/ errors' = {[ could_not_connect ]} ∪ errors
  \/ (exists ver, errors' = {[ version_too_old ver ]} ∪ errors) ->
  cannot_overwrite ∈ errors' <-> cannot_overwrite ∈ errors.
Proof.
  intros [->|[->|[->|[->|[ver ->]]]]]; [reflexivity| | | |];
    rewrite elem_of_union, elem_of_singleton;
    (split; [intros [H|H]; [discriminate H | exact H] | intros H; right; exact H]).
Qed.

(** The error about overwriting the workspace is added exactly when
    layers of the workspace would be deleted and the answer to the dialog
    is No; with either answer the validation goes on to the version check
    and returns. *)
Theorem validateGeodataBeforePublication_overwrite st (errors : gset string) toPublish
    st1 will answer :
  willDeleteLayersOnPublication toPublish st = (st1, Ok will) ->
  snd (question "Workspace" overwrite_question (world st1)) = Ok answer ->
  snd (validateGeodataBeforePublication errors toPublish st) = Ok tt
  /\ (cannot_overwrite ∈ snd (fst (validateGeodataBeforePublication errors toPublish st))
      <-> (will = true /\ answer = No) \/ cannot_overwrite ∈ errors).
Proof.
  intros Hw Hq. unfold validateGeodataBeforePublication. fold (project_errors errors).
  assert (Hp : cannot_overwrite ∈ project_errors errors <-> cannot_overwrite ∈ errors).
  { unfold project_errors.
    destruct (negb (truthy absoluteFilePath)); destruct (contains "." _workspace);
      repeat rewrite elem_of_union, elem_of_singleton;
      (split; [intros H; repeat (destruct H as [H|H]; [discriminate H|]); exact H | auto]). }
  rewrite Hw.
  assert (Hc : forall st2 (found1 : gset string),
             snd (match checkMinGeoserverVersion found1 st2 with
                  | (st3, Ok errors0) => (st3, errors0, Ok tt)
                  | (st3, Raise e) => (st3, found1, Raise e)
                  end) = Ok tt
             /\ (cannot_overwrite
                   ∈ snd (fst (match checkMinGeoserverVersion found1 st2 with
                               | (st3, Ok errors0) => (st3, errors0, Ok tt)
                               | (st3, Raise e) => (st3, found1, Raise e)
                               end))
                 <-> cannot_overwrite ∈ found1)).
  { intros st2 found1.
    destruct (checkMinGeoserverVersion_shape st2 found1) as (st3 & found3 & -> & _ & Hs).
    cbn [fst snd]. split; [reflexivity|].
    apply cannot_overwrite_is_added_by_the_dialog_only. tauto. }
  destruct will.
  - unfold call. destruct (question "Workspace" overwrite_question (world st1)) as [w r].
    cbn [snd] in Hq. subst r.
    destruct answer; (split; [apply Hc|]); rewrite (proj2 (Hc _ _)).
    + rewrite Hp. split; [auto | intros [[_ H]|H]; [discriminate H | exact H]].
    + rewrite elem_of_union, elem_of_singleton. split; [auto|]. intros _. left. reflexivity.
  - split; [apply Hc|]. rewrite (proj2 (Hc _ _)), Hp.
    split; [auto | intros [[H _]|H]; [discriminate H | exact H]].
Qed.

(** *** The metadata link of a layer *)

Lemma assoc_get_set_other k k' v m : k' <> k -> assoc_get k' (assoc_set k v m) = assoc_get k' m.
Proof.
  intros Hk. induction m as [|[k0 v0] m IH]; cbn [assoc_set assoc_get].
  - destruct (String.eqb_spec k k'); [congruence | reflexivity].
  - destruct (String.eqb_spec k0 k) as [->|Hk0]; cbn [assoc_get].
    + destruct (String.eqb_spec k k'); [congruence | reflexivity].
    + rewrite IH. reflexivity.
Qed.

(** [d[k1][k2] = v] leaves the other keys of [d] as they were. *)
Lemma set_nested_other d k1 k2 v d' k :
  set_nested d k1 k2 v = Ok d' -> k <> k1 -> getitem d' k = getitem d k.
Proof.
  unfold set_nested. destruct (getitem d k1) as [inner|e]; [|discriminate].
  destruct (setitem inner k2 v) as [inner'|e]; [|discriminate].
  destruct d; cbn [setitem]; try discriminate.
  intros H Hk. injection H as <-. cbn [getitem]. rewrite assoc_get_set_other by exact Hk.
  reflexivity.
Qed.

Definition metadata_links (url : string) : json :=
  JObj [("metadataLink",
         JArr [JObj [("type", JStr "text/html");
                     ("metadataType", JStr "ISO19115:2003");
                     ("content", JStr url)]])].

Definition put_request (u : string) (doc : json) : Request :=
  {| req_url := u; req_data := DataDict doc; req_method := "put";
     req_headers := []; req_files := [] |}.

(** When [setLayerMetadataLink] returns it has sent three requests: the
    GET of the layer, the GET of the resource the layer points to, and a
    PUT of that resource's document to the same address.  The document
    put carries the link to [url] under [featureType] when the one
    fetched has that key and under [coverage] otherwise, and is in its
    other keys the document fetched. *)
Theorem setLayerMetadataLink_puts_back st name url st' :
  setLayerMetadataLink name url st = (st', Ok tt) ->
  exists href w1 r1 w2 r2 fetched key put,
    sent (setLayerMetadataLink name url) st
    = [get_request (self_url (self st) +:+ "/workspaces/" +:+ _workspace +:+ "/layers/"
                    +:+ name +:+ ".json");
       get_request href;
       put_request href put]
    /\ transport (get_request (self_url (self st) +:+ "/workspaces/" +:+ _workspace
                                +:+ "/layers/" +:+ name +:+ ".json")) (world st)
       = (w1, Ok r1)
    /\ transport (get_request href) w1 = (w2, Ok r2)
    /\ resp_json r2 = Some fetched
    /\ str_in "featureType" fetched = Ok (String.eqb key "featureType")
    /\ (key = "featureType" \/ key = "coverage")
    /\ lookup_path put [key; "metadataLinks"] = Ok (metadata_links url)
    /\ forall k, k <> key -> getitem put k = getitem fetched k.
Proof.
  intros H. unfold sent. rewrite H. cbn [fst]. revert H.
  unfold setLayerMetadataLink, request_json_url, the_url, request_get, request.
  run_method.
  fold (get_request (self_url (self st) +:+ "/workspaces/" +:+ _workspace +:+ "/layers/"
                     +:+ name +:+ ".json")).
  destruct (transport _ (world st)) as [w1 [r1|e]] eqn:Ht1; cbn [fst snd]; [|discriminate].
  unfold json_of. destruct (resp_json r1) as [j|]; [|discriminate].
  destruct (getitem j "layer") as [l|e]; [|discriminate].
  destruct (getitem l "resource") as [res|e]; [|discriminate].
  destruct (getitem res "href") as [[| | | |href| |]|e]; try discriminate.
  run_method. fold (get_request href).
  destruct (transport (get_request href) w1) as [w2 [r2|e]] eqn:Ht2; cbn [fst snd];
    [|discriminate].
  destruct (resp_json r2) as [fetched|] eqn:Hj2; [|discriminate].
  destruct (str_in "featureType" fetched) as [present|e] eqn:Hin; [|discriminate].
  fold (metadata_links url).
  destruct (set_nested fetched (if present then "featureType" else "coverage")
                       "metadataLinks" (metadata_links url)) as [put|e] eqn:Hset;
    [|discriminate].
  run_method. fold (put_request href put).
  destruct (transport (put_request href put) w2) as [w3 [r3|e]]; cbn [fst snd trace];
    [|discriminate].
  intros H. injection H as <-. cbn [trace].
  exists href, w1, r1, w2, r2, fetched, (if present then "featureType" else "coverage"), put.
  split; [rewrite <- !app_assoc, drop_app_length; reflexivity|].
  split; [reflexivity|].
  split; [exact Ht2|]. split; [exact Hj2|].
  split; [rewrite Hin; destruct present; reflexivity|].
  split; [destruct present; auto|].
  split; [exact (set_nested_lookup _ _ _ _ _ [] Hset)|].
  intros k Hk. exact (set_nested_other _ _ _ _ _ _ Hset Hk).
Qed.


(** *** The version check reads the minor number alone *)

(** The decimal numeral with the digits [ds], and its value. *)
Definition digit_char (d : nat) : ascii := ascii_of_nat (48 + d).
Definition numeral (ds : list nat) : string := str (map digit_char ds).
Definition numeral_value (ds : list nat) : Z :=
  fold_left (fun a d => (10 * a + Z.of_nat d)%Z) ds 0%Z.

Lemma digit_char_spec d :
  (d < 10)%nat ->
  digit_of (digit_char d) = Some (Z.of_nat d)
  /\ is_blank (digit_char d) = false
  /\ to_ascii (N_of_ascii (digit_char d)) = digit_char d
  /\ (N_of_ascii (digit_char d) <? 128)%N = true
  /\ Ascii.eqb (digit_char d) "-" = false
  /\ Ascii.eqb (digit_char d) "+" = false.
Proof.
  intros Hd.
  destruct d as [|[|[|[|[|[|[|[|[|[|d]]]]]]]]]]; try lia; vm_compute; repeat split; reflexivity.
Qed.

Lemma code_points_numeral ds :
  Forall (fun d => (d < 10)%nat) ds ->
  map to_ascii (code_points_go 0 0 (map digit_char ds)) = map digit_char ds.
Proof.
  induction 1 as [|d ds Hd _ IH]; [reflexivity|].
  destruct (digit_char_spec d Hd) as (_ & _ & Ha & Hlt & _).
  cbn [map code_points_go]. rewrite Hlt. cbn [map]. rewrite Ha, IH. reflexivity.
Qed.

Lemma lstrip_blank_numeral ds :
  Forall (fun d => (d < 10)%nat) ds ->
  lstrip_blank (map digit_char ds) = map digit_char ds.
Proof.
  intros H. destruct H as [|d ds Hd _]; [reflexivity|].
  destruct (digit_char_spec d Hd) as (_ & Hb & _).
  cbn [map lstrip_blank]. rewrite Hb. reflexivity.
Qed.

Lemma int_digits_numeral ds acc :
  Forall (fun d => (d < 10)%nat) ds ->
  int_digits acc (map digit_char ds)
  = Some (fold_left (fun a d => (10 * a + Z.of_nat d)%Z) ds acc).
Proof.
  intros H. revert acc. induction H as [|d ds Hd _ IH]; intros acc; [reflexivity|].
  destruct (digit_char_spec d Hd) as (Hdig & _).
  cbn [map int_digits fold_left]. rewrite Hdig. apply IH.
Qed.

(** [int] reads a decimal numeral as its value. *)
Lemma int_numeral ds :
  ds <> [] -> Forall (fun d => (d < 10)%nat) ds -> int (numeral ds) = Ok (numeral_value ds).
Proof.
  intros Hne Hds. unfold int, numeral, code_points. rewrite chars_str.
  rewrite (code_points_numeral ds Hds), (lstrip_blank_numeral ds Hds).
  rewrite <- map_rev.
  rewrite (lstrip_blank_numeral (rev ds)) by (apply Forall_rev; exact Hds).
  rewrite map_rev, rev_involutive.
  destruct Hds as [|d ds Hd Hds]; [contradiction|].
  destruct (digit_char_spec d Hd) as (Hdig & _ & _ & _ & Hm & Hp).
  cbn [map]. rewrite Hm, Hp. unfold int_unsigned. rewrite Hdig.
  rewrite (int_digits_numeral ds _ Hds). unfold numeral_value. cbn [fold_left].
  reflexivity.
Qed.

(** For a server that reports a GeoServer version of three parts whose
    second part is the decimal numeral of [n], [checkMinGeoserverVersion]
    returns the errors with the message about the version added exactly
    when [n <= 13]: the first and the third part, whatever they are, have
    no say. *)
Theorem checkMinGeoserverVersion_minor_only st (errors : gset string) w r ver others
    major ds patch :
  transport (get_request (self_url (self st) +:+ "/about/version.json")) (world st)
  = (w, Ok r) ->
  resp_json r
  = Some (JObj [("about",
                 JObj [("resource",
                        JArr (JObj [("@name", JStr "GeoServer"); ("Version", JStr ver)]
                              :: others))])]) ->
  split ver dot = [major; numeral ds; patch] ->
  ds <> [] ->
  Forall (fun d => (d < 10)%nat) ds ->
  snd (checkMinGeoserverVersion errors st)
  = Ok (if (numeral_value ds <=? 13)%Z then {[ version_too_old ver ]} ∪ errors else errors).
Proof.
  intros Ht Hj Hsplit Hne Hds.
  unfold checkMinGeoserverVersion, the_url, request_get. run_method.
  fold (get_request (self_url (self st) +:+ "/about/version.json")). rewrite Ht.
  cbn [fst snd]. unfold json_of. rewrite Hj.
  cbn [getitem assoc_get String.eqb Ascii.eqb Bool.eqb].
  unfold version_errors. cbn [Py.iter first_geoserver_version getitem assoc_get].
  change (String.eqb "@name" "@name") with true.
  change (String.eqb "@name" "Version") with false.
  change (String.eqb "Version" "Version") with true.
  cbv iota. change (eq_str (JStr "GeoServer") "GeoServer") with true. cbv iota.
  rewrite Hsplit, (int_numeral ds Hne Hds).
  destruct (numeral_value ds <=? 13)%Z; cbn [snd]; f_equal.
  - cbn [list_to_set foldr]. rewrite (right_id_L ∅ (∪)). reflexivity.
  - cbn [list_to_set foldr]. apply (left_id_L ∅ (∪)).
Qed.


End Properties.

(* ===================================================================== *)
(** ** The properties on the reference remote *)
(* ===================================================================== *)

Section OnTheReferenceRemote.
#[local] Existing Instance Mock.env.

(** C4 on the reference remote: the layer without features. *)
Lemma publishLayer_zero_features_witness :
  layer_type Mock.empty_layer = VectorLayer
  /\ featureCount Mock.empty_layer = 0%Z
  /\ publishLayer Mock.empty_layer None (Mock.session CacheNone (Mock.remote ["proj"] ["a"] []))
     = ({| self := Mock.server CacheNone; world := Mock.remote ["proj"] ["a"] [];
           trace := [];
           logged := [(Error, "Layer contains zero features and cannot be published")] |},
        Ok tt).
Proof.
  split; [reflexivity|]. split; [reflexivity|].
  apply (publishLayer_zero_features (E := Mock.env)); reflexivity.
Defined.

(** C5 on the reference remote: the style [roads] is published twice to
    a workspace without styles.  The first call POSTs, the second PUTs,
    and the server ends up holding one style. *)
Lemma publish_same_style_twice_witness :
  let st := Mock.session CacheNone (Mock.remote ["proj"] [] []) in
  let st1 := fst (_publishStyle "roads" "/tmp/roads.zip" st) in
  let st2 := fst (_publishStyle "roads" "/tmp/roads.zip" st1) in
  Mock.style_names (world st2) = ["roads"]
  /\ exists content1 content2,
       uploads (sent (_publishStyle "roads" "/tmp/roads.zip") st)
       = [ {| req_url := Mock.ws_url +:+ "/styles?name=roads";
              req_data := DataBytes content1; req_method := "post";
              req_headers := [("Content-type", "application/zip")]; req_files := [] |} ]
       /\ uploads (sent (_publishStyle "roads" "/tmp/roads.zip") st1)
          = [ {| req_url := Mock.ws_url +:+ "/styles/roads";
                 req_data := DataBytes content2; req_method := "put";
                 req_headers := [("Content-type", "application/zip")]; req_files := [] |} ].
Proof.
  intros st st1 st2. split; [vm_compute; reflexivity|].
  apply (publish_same_style_twice (E := Mock.env) st "roads" "/tmp/roads.zip" st1 st2);
    vm_compute; reflexivity.
Defined.

(** C6, counterexample.  With [onlySymbology] true the layer cache
    survives [prepareForPublishing]: a name cached earlier is still
    answered from the cache afterwards, although the workspace holds no
    layer. *)
Lemma prepareForPublishing_keeps_layer_cache :
  let st := Mock.session (CacheItems [JStr "gone"]) (Mock.remote ["proj"] [] []) in
  let st' := fst (prepareForPublishing true st) in
  snd (prepareForPublishing true st) = Ok tt
  /\ _layersCache (self st') = CacheItems [JStr "gone"]
  /\ layerExists "gone" st' = (st', Ok true).
Proof. vm_compute. repeat split; reflexivity. Qed.

(** C6 as amended, on the reference remote: an existing workspace is
    deleted and created again, and the cache is cleared. *)
Lemma prepareForPublishing_resets_witness :
  let st := Mock.session (CacheItems [JStr "gone"]) (Mock.remote ["proj"] ["a"] []) in
  let st' := fst (prepareForPublishing false st) in
  prepareForPublishing false st = (st', Ok tt)
  /\ _uploadedDatasets (self st') = Some ∅
  /\ _exportedLayers (self st') = Some ∅
  /\ _publishedLayers (self st') = Some []
  /\ _layersCache (self st') = CacheNone.
Proof.
  intros st st'.
  assert (Hrun : prepareForPublishing false st = (st', Ok tt)) by (vm_compute; reflexivity).
  split; [exact Hrun|].
  exact (prepareForPublishing_resets (E := Mock.env) st false st' Hrun).
Defined.


(** C9 on the reference remote: the fourth request of the file-based
    path is the feature-type update (a PUT, the dataset being new), and it
    carries the extent of the layer rounded to five places: -0.12346 to
    5.98765 by 51.00001 to 52.37404. *)
Lemma feature_type_bounding_box_witness :
  let st := Mock.session CacheNone (Mock.remote ["proj"] [] []) in
  let run := _publishVectorLayerFromFile Mock.parcels "/tmp/parcels.gpkg" in
  let rq := nth 3 (sent run st) (get_request EmptyString) in
  let ft := match req_data rq with DataDict j => j | _ => JNull end in
  snd (run st) = Ok tt
  /\ req_method rq = "put"
  /\ req_url rq = Mock.ws_url +:+ "/datastores/parcels/featuretypes/tbl.json"
  /\ lookup_path ft ["featureType"; "nativeBoundingBox"; "minx"]
     = Ok (JFloat (S754_finite true 8896230559922583 (-56)))
  /\ lookup_path ft ["featureType"; "nativeBoundingBox"; "maxx"]
     = Ok (JFloat (S754_finite false 6741494577206238 (-50)))
  /\ lookup_path ft ["featureType"; "nativeBoundingBox"; "miny"]
     = Ok (JFloat (S754_finite false 7177613313496612 (-47)))
  /\ lookup_path ft ["featureType"; "nativeBoundingBox"; "maxy"]
     = Ok (JFloat (S754_finite false 7370990844621483 (-47)))
  /\ lookup_path ft ["featureType"; "nativeBoundingBox"; "srs"] = Ok (JStr "EPSG:4326").
Proof.
  intros st run rq ft.
  split; [vm_compute; reflexivity|].
  split; [vm_compute; reflexivity|].
  split; [vm_compute; reflexivity|].
  destruct (feature_type_bounding_box (E := Mock.env) st Mock.parcels "/tmp/parcels.gpkg" rq ft)
    as (minx & maxx & miny & maxy & H1 & H2 & H3 & H4 & H5 & -> & -> & -> & -> & _).
  - vm_compute. right. right. right. left. reflexivity.
  - vm_compute. reflexivity.
  - vm_compute. reflexivity.
  - repeat split; assumption.
Defined.

(** C10 on the reference remote: no workspace, then a workspace holding
    [a] and [b] of which only [a] is to be published. *)
Lemma willDeleteLayersOnPublication_witness :
  let fresh := Mock.session CacheNone (Mock.remote [] [] []) in
  let used := Mock.session CacheNone (Mock.remote ["proj"] ["a"; "b"] []) in
  willDeleteLayersOnPublication ["a"] fresh = (fst (workspaceExists fresh), Ok false)
  /\ exists b,
       willDeleteLayersOnPublication ["a"] used
       = (fst (layers (fst (workspaceExists used))), Ok b)
       /\ (b = true <-> exists n, In n ["a"; "b"] /\ ~ In n ["a"]).
Proof.
  intros fresh used. split.
  - assert (H : workspaceExists fresh = (fst (workspaceExists fresh), Ok false))
      by (vm_compute; reflexivity).
    exact (willDeleteLayersOnPublication_spec (E := Mock.env) fresh ["a"] _ false H).
  - assert (H : workspaceExists used = (fst (workspaceExists used), Ok true))
      by (vm_compute; reflexivity).
    assert (Hl : layers (fst (workspaceExists used))
                 = (fst (layers (fst (workspaceExists used))), Ok (map JStr ["a"; "b"])))
      by (vm_compute; reflexivity).
    exact (willDeleteLayersOnPublication_spec (E := Mock.env) used ["a"] _ true H _ _ Hl).
Defined.




(** Publishing the layer [roads] clears a filled layer cache. *)
Lemma publishLayer_clears_cache_witness :
  let st := Mock.session (CacheItems [JStr "old"]) (Mock.remote ["proj"] [] []) in
  let st' := fst (publishLayer Mock.roads None st) in
  publishLayer Mock.roads None st = (st', Ok tt)
  /\ _layersCache (self st') = CacheNone.
Proof.
  intros st st'.
  assert (Hrun : publishLayer Mock.roads None st = (st', Ok tt)) by (vm_compute; reflexivity).
  split; [exact Hrun|].
  apply (publishLayer_clears_cache (E := Mock.env) st Mock.roads None st' Hrun).
  intros _. discriminate.
Defined.

(** After a cleared cache the layer list is fetched again. *)
Lemma layerExists_asks_when_cleared_witness :
  sent (layerExists "a") (Mock.session CacheNone (Mock.remote ["proj"] ["a"] []))
  = [get_request (Mock.ws_url +:+ "/layers.json")].
Proof.
  apply (layerExists_asks_when_cleared (E := Mock.env)
           (Mock.session CacheNone (Mock.remote ["proj"] ["a"] [])) "a").
  reflexivity.
Defined.

(** A new server object has the cache [{}]: no layer exists for it, and
    [deleteLayer] does nothing, although the server holds the layer. *)
Lemma layerExists_answers_from_cache_witness :
  let st := Mock.session CacheEmptyDict (Mock.remote ["proj"] ["a"] []) in
  layerExists "a" st = (st, Ok false) /\ deleteLayer "a" true st = (st, Ok tt).
Proof.
  intros st.
  destruct (layerExists_answers_from_cache (E := Mock.env) st "a" true) as [_ H];
    [discriminate|].
  apply H. reflexivity.
Defined.

(** After a check that found [a], no check of a layer asks the server. *)
Lemma layerExists_true_is_cached_witness :
  let st := Mock.session CacheNone (Mock.remote ["proj"] ["a"] []) in
  let st1 := fst (layerExists "a" st) in
  _layersCache (self st1) <> CacheNone
  /\ forall name', sent (layerExists name') st1 = [].
Proof.
  intros st st1.
  apply (layerExists_true_is_cached (E := Mock.env) st "a" st1).
  vm_compute. reflexivity.
Defined.

(** A snapshot version passes the check. *)
Lemma checkMinGeoserverVersion_tolerates_odd_versions_witness :
  snd (checkMinGeoserverVersion ∅ (Mock.session CacheNone (Mock.reporting "2.15-SNAPSHOT")))
  = Ok ∅.
Proof.
  eapply (checkMinGeoserverVersion_tolerates_odd_versions (E := Mock.env)
            (Mock.session CacheNone (Mock.reporting "2.15-SNAPSHOT")) ∅ _ _
            "2.15-SNAPSHOT" []).
  - reflexivity.
  - reflexivity.
  - vm_compute. discriminate.
Defined.

(** GeoServer 3.0.0 is too old to the check, its minor number being 0. *)
Lemma checkMinGeoserverVersion_minor_only_witness :
  snd (checkMinGeoserverVersion ∅ (Mock.session CacheNone (Mock.reporting "3.0.0")))
  = Ok ({[ version_too_old "3.0.0" ]} ∪ ∅).
Proof.
  eapply (checkMinGeoserverVersion_minor_only (E := Mock.env)
            (Mock.session CacheNone (Mock.reporting "3.0.0")) ∅ _ _ "3.0.0" [] "3" [0%nat] "0").
  - reflexivity.
  - reflexivity.
  - reflexivity.
  - discriminate.
  - repeat constructor.
Defined.

(** The tree of nested groups is not published: the requests sent are
    those for the style of the group. *)
Lemma publishGroup_nested_raises_witness :
  let st := Mock.session CacheNone (Mock.remote ["proj"] [] []) in
  (exists e, snd (_publishGroup Mock.nested_tree_leaf_name [] st) = Raise e)
  /\ sent (_publishGroup Mock.nested_tree_leaf_name []) st
     = sent (_publishGroupMapBox Mock.nested_tree_leaf_name []) st.
Proof.
  intros st.
  eapply (publishGroup_nested_raises (E := Mock.env) st Mock.nested_tree_leaf_name []).
  - reflexivity.
  - right. left. reflexivity.
Defined.

(** A full publication deletes the workspace and nothing else. *)
Lemma prepareForPublishing_deletes_only_workspace_witness :
  let st := Mock.session CacheNone (Mock.remote ["proj"] ["a"] []) in
  let rq := nth 1 (sent (prepareForPublishing false) st) (get_request EmptyString) in
  false = false /\ req_url rq = Mock.ws_url +:+ "?recurse=true".
Proof.
  intros st rq.
  apply (prepareForPublishing_deletes_only_workspace (E := Mock.env) st false rq).
  - vm_compute. right. left. reflexivity.
  - vm_compute. reflexivity.
Defined.

(** Publishing the style of [roads] records the layer. *)
Lemma publishStyle_records_layer_witness :
  let st := Mock.session CacheNone (Mock.remote ["proj"] [] []) in
  exists recorded,
    _publishedLayers (self (fst (publishStyle Mock.roads st))) = Some recorded
    /\ (exists l, In l recorded /\ layer_id l = layer_id Mock.roads)
    /\ (forall l, In l [] -> In l recorded).
Proof.
  intros st.
  apply (publishStyle_records_layer (E := Mock.env) st Mock.roads []).
  reflexivity.
Defined.

(** The URL of the form, typed with the suffix and a slash, is stored with
    the suffix twice; it still ends in [rest] and not in a slash. *)
Lemma init_url_ends_in_rest_witness :
  let u := self_url (__init__ "gs" "http://localhost:8080/geoserver/rest/" "auth"
                              FILE_BASED None false false) in
  endswith u "rest" = true /\ endswith u "/" = false.
Proof.
  apply (init_url_ends_in_rest "gs" "http://localhost:8080/geoserver/rest/" "auth"
           FILE_BASED None false false).
  reflexivity.
Defined.

(** The base URL of the reference server. *)
Lemma baseUrl_drops_rest_witness :
  let st := Mock.session CacheNone (Mock.remote [] [] []) in
  baseUrl st = (st, Ok "http://localhost:8080/geoserver")
  /\ layerWfsUrl st = (st, Ok "http://localhost:8080/geoserver/wfs").
Proof.
  intros st.
  apply (baseUrl_drops_rest (E := Mock.env) st "http://localhost:8080/geoserver").
  reflexivity.
Defined.


End OnTheReferenceRemote.
